(** * mcp-ide-playbooks: the setup wizard and the health check

    A shallow embedding of [scripts/create-mcp-ide.js] (class [MCPIDESetup])
    and of the [mcp-ide] command line (class [MCPIDECli]):

    - JavaScript strings are sequences of UTF-16 code units, because
      [length], [padEnd], [substring] and [includes] count code units;
    - JavaScript values (what [JSON.parse] returns, what an object literal
      holds) are an inductive type with the language's truthiness;
    - everything that touches the outside world (the console, the spinner,
      [execSync], [inquirer], [fs], [process.exit]) runs in a small monad
      over the history of events, with the environment's answers given by
      oracles that may depend on the whole history. *)

From Stdlib Require Import String Ascii List Bool NArith ZArith QArith Lia.
Import ListNotations.

Set Implicit Arguments.
Set Warnings "-register-all".
Local Open Scope N_scope.

(* ------------------------------------------------------------------ *)
(** ** JavaScript strings *)

Definition jsstring := list N.

Fixpoint bytes_of (s : string) : list N :=
  match s with
  | EmptyString => []
  | String a r => N_of_ascii a :: bytes_of r
  end.

(** The source file is UTF-8; [utf8_points] reads the bytes of a literal
    back into code points ([need] continuation bytes are still expected,
    [acc] holds the bits read so far). *)
Fixpoint utf8_points (bs : list N) (need : nat) (acc : N) : list N :=
  match bs with
  | [] => []
  | b :: r =>
    match need with
    | O =>
      if b <? 128 then b :: utf8_points r 0 0
      else if b <? 224 then utf8_points r 1 (b - 192)
      else if b <? 240 then utf8_points r 2 (b - 224)
      else utf8_points r 3 (b - 240)
    | S O => (acc * 64 + (b - 128)) :: utf8_points r 0 0
    | S n => utf8_points r n (acc * 64 + (b - 128))
    end
  end.

Definition utf16_units (cp : N) : list N :=
  if cp <? 65536 then [cp]
  else [55296 + (cp - 65536) / 1024; 56320 + (cp - 65536) mod 1024].

(** [js "..."] is the JavaScript string written by that literal. *)
Definition js (s : string) : jsstring :=
  flat_map utf16_units (utf8_points (bytes_of s) 0 0).

(** [a === b] on strings *)
Fixpoint str_eqb (a b : jsstring) : bool :=
  match a, b with
  | [], [] => true
  | c :: a', d :: b' => (c =? d) && str_eqb a' b'
  | _, _ => false
  end.

Fixpoint starts_with (s p : jsstring) {struct p} : bool :=
  match p with
  | [] => true
  | c :: p' =>
    match s with
    | [] => false
    | d :: s' => (c =? d) && starts_with s' p'
    end
  end.

(** [String.prototype.includes] *)
Fixpoint includes (s p : jsstring) : bool :=
  starts_with s p ||
  match s with
  | [] => false
  | _ :: r => includes r p
  end.

(** [String.prototype.padEnd] with the default filler, a space; a string
    already long enough comes back unchanged. *)
Definition padEnd (s : jsstring) (target : nat) : jsstring :=
  s ++ repeat 32 (target - length s)%nat.

(** [' '.repeat(n)] *)
Definition spaces (n : nat) : jsstring := repeat 32 n.

(** [s.split('.')[0]]: the part before the first full stop, the whole
    string when there is none. *)
Fixpoint before_dot (s : jsstring) : jsstring :=
  match s with
  | [] => []
  | c :: r => if c =? 46 then [] else c :: before_dot r
  end.

(** [s.substring(1)] *)
Definition substring1 (s : jsstring) : jsstring := tl s.

(** [Array.prototype.join] on strings *)
Fixpoint join (sep : jsstring) (l : list jsstring) : jsstring :=
  match l with
  | [] => []
  | [x] => x
  | x :: r => x ++ sep ++ join sep r
  end.

(* ------------------------------------------------------------------ *)
(** ** [parseInt] with no radix argument *)

(** WhiteSpace and LineTerminator code units, which [parseInt] skips. *)
Definition is_js_space (c : N) : bool :=
  existsb (N.eqb c)
    [9; 10; 11; 12; 13; 32; 160; 5760; 8192; 8193; 8194; 8195; 8196; 8197;
     8198; 8199; 8200; 8201; 8202; 8232; 8233; 8239; 8287; 12288; 65279].

Fixpoint skip_space (s : jsstring) : jsstring :=
  match s with
  | c :: r => if is_js_space c then skip_space r else s
  | [] => []
  end.

(** The value of a code unit as a digit of the given radix. *)
Definition digit_of (radix c : N) : option N :=
  let d :=
    if (48 <=? c) && (c <=? 57) then Some (c - 48)
    else if (97 <=? c) && (c <=? 122) then Some (c - 87)
    else if (65 <=? c) && (c <=? 90) then Some (c - 55)
    else None in
  match d with
  | Some v => if v <? radix then Some v else None
  | None => None
  end.

(** The longest prefix of digits, read left to right; [None] when the
    prefix is empty. *)
Fixpoint read_digits (radix : N) (s : jsstring) (acc : option N) : option N :=
  match s with
  | [] => acc
  | c :: r =>
    match digit_of radix c with
    | Some v => read_digits radix r (Some (match acc with Some a => a * radix + v | None => v end))
    | None => acc
    end
  end.

(** [parseInt(s)]: [None] is NaN.  The mathematical integer stands for the
    double the engine rounds it to: the two are the same up to 2^53, and
    differ above.  Rounding is monotone and 18 is exact, so comparisons
    with 18 are unaffected. *)
Definition parseInt (s : jsstring) : option Z :=
  let s1 := skip_space s in
  let '(negative, s2) :=
    match s1 with
    | 45 :: r => (true, r)
    | 43 :: r => (false, r)
    | _ => (false, s1)
    end in
  let '(radix, s3) :=
    match s2 with
    | 48 :: 120 :: r => (16, r)
    | 48 :: 88 :: r => (16, r)
    | _ => (10, s2)
    end in
  match read_digits radix s3 None with
  | Some n => Some (if negative then (- Z.of_N n)%Z else Z.of_N n)
  | None => None
  end.

(** [parseInt(version.split('.')[0].substring(1))] *)
Definition major_version (version : jsstring) : option Z :=
  parseInt (substring1 (before_dot version)).

(** [x >= 18] and [x < 18] on a number that may be NaN: both are false
    on NaN. *)
Definition ge18 (x : option Z) : bool :=
  match x with Some m => (18 <=? m)%Z | None => false end.

Definition lt18 (x : option Z) : bool :=
  match x with Some m => (m <? 18)%Z | None => false end.

(* ------------------------------------------------------------------ *)
(** ** JavaScript values *)

(** A number that [JSON.parse] can produce: never NaN. *)
Inductive number :=
| Finite (q : Q)
| Infinite (negative : bool).

Inductive value :=
| VUndefined
| VNull
| VBool (b : bool)
| VNum (n : number)
| VStr (s : jsstring)
| VArr (items : list value)
| VObj (fields : list (jsstring * value))
| VBuiltin (path : jsstring).   (* a built-in function or object, by name *)

(** ToBoolean *)
Definition truthy (v : value) : bool :=
  match v with
  | VUndefined | VNull => false
  | VBool b => b
  | VNum (Finite q) => negb (Qeq_bool q 0)
  | VNum (Infinite _) => true
  | VStr s => match s with [] => false | _ => true end
  | VArr _ | VObj _ | VBuiltin _ => true
  end.

(** [a || b] *)
Definition js_or (a b : value) : value := if truthy a then a else b.

Fixpoint own_property (fields : list (jsstring * value)) (key : jsstring) : option value :=
  match fields with
  | [] => None
  | (k, v) :: r => if str_eqb k key then Some v else own_property r key
  end.

(** The properties every ordinary object inherits from [Object.prototype]
    (ECMAScript, with the Annex B accessors Node implements). *)
Definition object_prototype_keys : list jsstring :=
  map js ["constructor"; "__proto__"; "hasOwnProperty"; "isPrototypeOf";
          "propertyIsEnumerable"; "toLocaleString"; "toString"; "valueOf";
          "__defineGetter__"; "__defineSetter__"; "__lookupGetter__";
          "__lookupSetter__"]%string.

Definition inherited (key : jsstring) : bool :=
  existsb (str_eqb key) object_prototype_keys.

(** [o[key]] on an object literal with the given own properties: an own
    property, else what [Object.prototype] provides, else [undefined]. *)
Definition object_get (fields : list (jsstring * value)) (key : jsstring) : value :=
  match own_property fields key with
  | Some v => v
  | None =>
    if inherited key then VBuiltin (js "Object.prototype." ++ key)
    else VUndefined
  end.

(* ------------------------------------------------------------------ *)
(** ** chalk *)

(** A style is its pair of SGR codes.  [chalk.cyan.bold] opens cyan then
    bold and closes bold then cyan. *)
Record style := { open_code : jsstring; close_code : jsstring }.

Definition sgr (n : string) : jsstring := 27 :: js "[" ++ js n ++ js "m".

Definition red := {| open_code := sgr "31"; close_code := sgr "39" |}.
Definition green := {| open_code := sgr "32"; close_code := sgr "39" |}.
Definition yellow := {| open_code := sgr "33"; close_code := sgr "39" |}.
Definition magenta := {| open_code := sgr "35"; close_code := sgr "39" |}.
Definition cyan := {| open_code := sgr "36"; close_code := sgr "39" |}.
Definition white := {| open_code := sgr "37"; close_code := sgr "39" |}.
Definition gray := {| open_code := sgr "90"; close_code := sgr "39" |}.
Definition bold := {| open_code := sgr "1"; close_code := sgr "22" |}.

(** Replace every occurrence of [old] (which is not empty) by [new];
    [skip] code units of a match are still to be dropped. *)
Fixpoint replace_all (old new s : jsstring) (skip : nat) : jsstring :=
  match s with
  | [] => []
  | c :: r =>
    match skip with
    | S k => replace_all old new r k
    | O =>
      if starts_with s old then new ++ replace_all old new r (length old - 1)
      else c :: replace_all old new r 0
    end
  end.

(** Close the style before a line feed (or CR LF) and reopen it after. *)
Fixpoint encase_crlf (close open s : jsstring) : jsstring :=
  match s with
  | [] => []
  | 13 :: r =>
    match r with
    | 10 :: r' => close ++ [13; 10] ++ open ++ encase_crlf close open r'
    | _ => 13 :: encase_crlf close open r
    end
  | 10 :: r => close ++ [10] ++ open ++ encase_crlf close open r
  | c :: r => c :: encase_crlf close open r
  end.

(** [chalk.<style>(s)] for a chain of styles, outermost first, as chalk 4
    applies it; [colors] is whether chalk found a colour terminal
    (level above 0): a close code inside [s] is followed by the open code
    again, innermost style first, and every line break is encased. *)
Definition chalk (colors : bool) (chain : list style) (s : jsstring) : jsstring :=
  match s with
  | [] => []
  | _ :: _ =>
    if colors then
      let openAll := flat_map open_code chain in
      let closeAll := flat_map close_code (rev chain) in
      let s1 :=
        if existsb (N.eqb 27) s
        then fold_left
               (fun acc st => replace_all (close_code st) (close_code st ++ open_code st) acc 0)
               (rev chain) s
        else s in
      let s2 := if existsb (N.eqb 10) s1 then encase_crlf closeAll openAll s1 else s1 in
      openAll ++ s2 ++ closeAll
    else s
  end.

(** The number of code units a terminal shows: escape sequences (ESC
    followed by one unit, or ESC [ ... up to a final unit in @ .. ~) are
    not shown. *)
Inductive ansi_state := Shown | AfterEsc | InCsi.

Fixpoint visible_from (st : ansi_state) (s : jsstring) : nat :=
  match s with
  | [] => 0%nat
  | c :: r =>
    match st with
    | Shown => if c =? 27 then visible_from AfterEsc r else S (visible_from Shown r)
    | AfterEsc => if c =? 91 then visible_from InCsi r else visible_from Shown r
    | InCsi => if (64 <=? c) && (c <=? 126) then visible_from Shown r else visible_from InCsi r
    end
  end.

Definition visible_length (s : jsstring) : nat := visible_from Shown s.

(* ------------------------------------------------------------------ *)
(** ** The outside world *)

(** What is handed to [fs.writeFile]. *)
Inductive file_data :=
| Text (s : jsstring)
| Stringified (v : value) (indent : N).   (* JSON.stringify(v, null, indent) *)

(** Everything the two programs do to their surroundings. *)
Inductive event :=
| ConsoleClear
| ConsoleLog (line : jsstring)
| ConsoleError (line : jsstring)
| SpinnerStart (text : jsstring)
| SpinnerSucceed (text : jsstring)
| SpinnerFail (text : jsstring)
| SpinnerWarn (text : jsstring)
| ExecSync (command : jsstring)
| Confirm (question : jsstring)
| Questionnaire
| FsAccess (path : jsstring)
| FsReadFile (path : jsstring)
| FsMkdir (path : jsstring)
| FsWriteFile (path : jsstring) (data : file_data)
| FsChmod (path : jsstring) (mode : N).

(** The history of a run, newest event first. *)
Definition history := list event.

(** The Setup Selection, [this.config].  Quick mode leaves
    [installGlobal] and [apiKey] undefined. *)
Record Config := {
  ide : jsstring;
  ai : jsstring;
  useCase : jsstring;
  installGlobal : option bool;
  apiKey : option jsstring
}.

(** [JSON.parse(await fs.readFile(path, 'utf8'))] as the file system and
    the parser decide it: the read rejects, the text does not parse, or
    the text parses to a value. *)
Inductive read_outcome :=
| ReadRejects (message : jsstring)
| Malformed (message : jsstring)
| Parsed (v : value).

Inductive fs_request :=
| Access (path : jsstring)
| Mkdir (path : jsstring)
| WriteFile (path : jsstring) (data : file_data)
| Chmod (path : jsstring) (mode : N).

(** The environment of a run.  The oracles see the history so far, so an
    answer may depend on everything that happened before the question. *)
Record Env := {
  process_version : jsstring;                        (* process.version *)
  opt_vscode : bool;                                 (* program.opts().vscode *)
  opt_claude : bool;                                 (* program.opts().claude *)
  chalk_colors : bool;                               (* chalk.level > 0 *)
  os_homedir : jsstring;                             (* os.homedir() *)
  process_env : jsstring -> option jsstring;         (* process.env *)
  exec_oracle : history -> jsstring -> jsstring + jsstring;
      (* execSync: [inl] the output, [inr] the message of the error thrown *)
  confirm_oracle : history -> bool;                  (* the operator's yes or no *)
  questionnaire_oracle : history -> Config;          (* the operator's selection *)
  fs_oracle : history -> fs_request -> option jsstring;
      (* [Some] message: the call rejects *)
  read_oracle : history -> jsstring -> read_outcome
}.

(** How a computation ends: it returns, it throws an error (of which the
    programs only read [message]), or it calls [process.exit]. *)
Inductive outcome (A : Type) :=
| Ret (a : A)
| Throw (message : jsstring)
| Exit (code : Z).
Arguments Throw {A} message.
Arguments Exit {A} code.

Definition M (A : Type) := Env -> history -> outcome A * history.

Definition ret {A} (a : A) : M A := fun _ h => (Ret a, h).

Definition bind {A B} (m : M A) (k : A -> M B) : M B :=
  fun env h =>
    match m env h with
    | (Ret a, h') => k a env h'
    | (Throw e, h') => (Throw e, h')
    | (Exit c, h') => (Exit c, h')
    end.

Notation "x <- m ;; k" := (bind m (fun x => k))
  (at level 61, m at next level, right associativity).
Notation "m ;; k" := (bind m (fun _ => k))
  (at level 61, right associativity).

(** [try { m } catch (error) { handler(error.message) }]; [process.exit]
    is not an exception and passes through. *)
Definition try_catch {A} (m : M A) (handler : jsstring -> M A) : M A :=
  fun env h =>
    match m env h with
    | (Throw e, h') => handler e env h'
    | r => r
    end.

Definition with_env {A} (k : Env -> M A) : M A := fun env => k env env.

Definition emit (e : event) : M unit := fun _ h => (Ret tt, e :: h).

Definition process_exit {A} (code : Z) : M A := fun _ h => (Exit code, h).

Definition console_log (line : jsstring) : M unit := emit (ConsoleLog line).
Definition console_error (line : jsstring) : M unit := emit (ConsoleError line).

Definition execSync (command : jsstring) : M jsstring :=
  fun env h =>
    match exec_oracle env h command with
    | inl out => (Ret out, ExecSync command :: h)
    | inr msg => (Throw msg, ExecSync command :: h)
    end.

Definition fs_call (request : fs_request) (e : event) : M unit :=
  fun env h =>
    match fs_oracle env h request with
    | None => (Ret tt, e :: h)
    | Some msg => (Throw msg, e :: h)
    end.

Definition fs_access (path : jsstring) : M unit := fs_call (Access path) (FsAccess path).
Definition fs_mkdir (path : jsstring) : M unit := fs_call (Mkdir path) (FsMkdir path).
Definition fs_writeFile (path : jsstring) (data : file_data) : M unit :=
  fs_call (WriteFile path data) (FsWriteFile path data).
Definition fs_chmod (path : jsstring) (mode : N) : M unit :=
  fs_call (Chmod path mode) (FsChmod path mode).

(** [JSON.parse(await fs.readFile(path, 'utf8'))] *)
Definition read_json (path : jsstring) : M value :=
  fun env h =>
    match read_oracle env h path with
    | Parsed v => (Ret v, FsReadFile path :: h)
    | ReadRejects msg => (Throw msg, FsReadFile path :: h)
    | Malformed msg => (Throw msg, FsReadFile path :: h)
    end.

(** An [inquirer] confirm prompt. *)
Definition confirm (question : jsstring) : M bool :=
  fun env h => (Ret (confirm_oracle env h), Confirm question :: h).

(** [path.join] of two plain segments and [path.dirname] of a relative
    path without a trailing separator, as on POSIX.  The normalisation
    [path.join] applies to its result (of [..], [.] and doubled
    separators) is left out: the segments joined here are the home
    directory and fixed names. *)
Definition path_join (a b : jsstring) : jsstring := a ++ js "/" ++ b.

Fixpoint dirname_aux (s : jsstring) : option jsstring :=
  match s with
  | [] => None
  | c :: r =>
    match dirname_aux r with
    | Some d => Some (c :: d)
    | None => if c =? 47 then Some [] else None
    end
  end.

Definition path_dirname (s : jsstring) : jsstring :=
  match dirname_aux s with
  | Some [] => js "/"
  | Some d => d
  | None => js "."
  end.

(* ------------------------------------------------------------------ *)
(** ** Configuration Resolver ([MCPIDESetup.getMCPServers],
       [MCPIDESetup.getConfigPath]) *)

Definition field (k : string) (v : string) : jsstring * value := (js k, VStr (js v)).

Definition env_value (o : option jsstring) : value :=
  match o with Some s => VStr s | None => VUndefined end.

Definition web_servers : value :=
  VArr [ VObj [field "name" "filesystem"; field "type" "fs"; field "path" "./"];
         VObj [field "name" "npm"; field "type" "package"; field "manager" "npm"];
         VObj [field "name" "git"; field "type" "git"; field "repo" "./"] ].

Definition data_servers : value :=
  VArr [ VObj [field "name" "jupyter"; field "type" "jupyter"; field "notebooks" "./"];
         VObj [field "name" "database"; field "type" "sql"; field "connection" "sqlite:///data.db"];
         VObj [field "name" "filesystem"; field "type" "fs"; field "path" "./"] ].

Definition enterprise_servers (env : Env) : value :=
  VArr [ VObj [field "name" "jira"; field "type" "jira";
               (js "url", env_value (process_env env (js "JIRA_URL")))];
         VObj [field "name" "confluence"; field "type" "confluence";
               (js "url", env_value (process_env env (js "CONFLUENCE_URL")))];
         VObj [field "name" "git"; field "type" "git"; field "repo" "./"] ].

(** The [servers] object literal. *)
Definition servers (env : Env) : list (jsstring * value) :=
  [ (js "web", web_servers);
    (js "data", data_servers);
    (js "enterprise", enterprise_servers env) ].

(** [return servers[useCase] || servers.web;] *)
Definition getMCPServers (env : Env) (useCase : jsstring) : value :=
  js_or (object_get (servers env) useCase) (object_get (servers env) (js "web")).

(** The [switch] compares with [===]. *)
Definition getConfigPath (ide : jsstring) : jsstring :=
  if str_eqb ide (js "vscode") then js ".vscode/mcp-config.json"
  else if str_eqb ide (js "jetbrains") then js ".idea/mcp-config.json"
  else if str_eqb ide (js "cursor") then js ".cursor/mcp-config.json"
  else js ".mcp/config.json".

(* ------------------------------------------------------------------ *)
(** ** The health check ([MCPIDECli]) *)

(** A Check Result.  [success] is whatever value the check computed; the
    aggregator reads it for its truthiness. *)
Record check_result := { success : value; message : jsstring }.

Record check_descriptor := { check_name : jsstring; check : M check_result }.

(** [this.configDir] *)
Definition configDir (env : Env) : jsstring :=
  path_join (os_homedir env) (js ".mcp-intelligence").

Definition checkNode : M check_result :=
  with_env (fun env =>
    let version := process_version env in
    let major := major_version version in
    ret {| success := VBool (ge18 major);
           message := if ge18 major then js "v" ++ version
                      else js "v" ++ version ++ js " (18+ required)" |}).

Definition checkVSCode : M check_result :=
  try_catch
    (execSync (js "code --version") ;;
     ret {| success := VBool true; message := js "Installed" |})
    (fun _ => ret {| success := VBool false; message := js "Not found" |}).

Definition checkClaudeExtension : M check_result :=
  try_catch
    (extensions <- execSync (js "code --list-extensions") ;;
     let hasExtension :=
       includes extensions (js "Anthropic.claude-vscode") ||
       includes extensions (js "mcp.mcp-intelligence") in
     ret {| success := VBool hasExtension;
            message := if hasExtension then js "Installed" else js "Not installed" |})
    (fun _ => ret {| success := VBool false; message := js "Unable to check" |}).

Definition checkMCPIntelligence : M check_result :=
  try_catch
    (execSync (js "npm list -g @mcp-intelligence/core") ;;
     ret {| success := VBool true; message := js "Installed" |})
    (fun _ =>
       try_catch
         (execSync (js "npm list @mcp-intelligence/core") ;;
          ret {| success := VBool true; message := js "Installed (local)" |})
         (fun _ => ret {| success := VBool false; message := js "Not installed" |})).

(** [creds.claude] and [creds.github]: reading a property of [null] or
    [undefined] throws a TypeError; an object gives its property; neither
    name is a property of an array, a string, a number or a boolean. *)
Definition get_member (v : value) (key : jsstring) : M value :=
  match v with
  | VNull => fun _ h => (Throw (js "Cannot read properties of null"), h)
  | VUndefined => fun _ h => (Throw (js "Cannot read properties of undefined"), h)
  | VObj fields => ret (object_get fields key)
  | _ => ret VUndefined
  end.

Definition checkAPIKeys : M check_result :=
  try_catch
    (with_env (fun env =>
       let credPath := path_join (configDir env) (js "credentials.json") in
       fs_access credPath ;;
       creds <- read_json credPath ;;
       claude <- get_member creds (js "claude") ;;
       hasKey <- (if truthy claude then ret claude else get_member creds (js "github")) ;;
       ret {| success := hasKey;
              message := if truthy hasKey then js "Configured" else js "Not configured" |}))
    (fun _ => ret {| success := VBool false; message := js "Not configured" |}).

Definition checkNetwork : M check_result :=
  ret {| success := VBool true; message := js "Connected" |}.

(** The [checks] array. *)
Definition checks : list check_descriptor :=
  [ {| check_name := js "Node.js Version"; check := checkNode |};
    {| check_name := js "VS Code"; check := checkVSCode |};
    {| check_name := js "Claude Extension"; check := checkClaudeExtension |};
    {| check_name := js "MCP Intelligence"; check := checkMCPIntelligence |};
    {| check_name := js "API Keys"; check := checkAPIKeys |};
    {| check_name := js "Network"; check := checkNetwork |} ].

(** [Math.max(...checks.map(c => c.name.length))] for a list that is not
    empty. *)
Definition max_name_length (cs : list check_descriptor) : nat :=
  fold_right Nat.max 0%nat (map (fun c => length (check_name c)) cs).

Definition status_text (colors : bool) (result : check_result) : jsstring :=
  if truthy (success result)
  then chalk colors [green] (js "✅ " ++ message result)
  else chalk colors [red] (js "❌ " ++ message result).

(** The line one iteration of the loop prints. *)
Definition report_row (colors : bool) (maxLength : nat) (name : jsstring)
    (result : check_result) : jsstring :=
  let padding := spaces (maxLength - length name) in
  let status := status_text colors result in
  js "║ " ++ name ++ js ":" ++ padding ++ js "  " ++ padEnd status 30 ++ js " ║".

(** [for (const check of checks) { ... results.push(result); }] *)
Fixpoint check_loop (maxLength : nat) (cs : list check_descriptor)
    (results : list check_result) : M (list check_result) :=
  match cs with
  | [] => ret results
  | c :: rest =>
    result <- check c ;;
    with_env (fun env =>
      console_log (report_row (chalk_colors env) maxLength (check_name c) result)) ;;
    check_loop maxLength rest (results ++ [result])
  end.

Definition report_top : jsstring :=
  js "╔════════════════════════════════════════════════════════╗".
Definition report_title : jsstring :=
  js "║         MCP IDE Integration Health Check              ║".
Definition report_rule : jsstring :=
  js "╠════════════════════════════════════════════════════════╣".
Definition report_bottom : jsstring :=
  js "╚════════════════════════════════════════════════════════╝".

Definition summary_banner (colors : bool) (allSuccess : bool) : jsstring :=
  if allSuccess
  then chalk colors [green] (js "
✅ All systems operational!
")
  else chalk colors [yellow] (js "
⚠️  Some issues detected. Run `mcp-ide fix` to resolve.
").

(** The body of [healthCheck] over a [checks] array. *)
Definition healthCheck_over (cs : list check_descriptor) : M bool :=
  with_env (fun env =>
    console_log (chalk (chalk_colors env) [cyan] (js "
🔍 Running MCP IDE Health Check...
")) ;;
    let maxLength := max_name_length cs in
    console_log report_top ;;
    console_log report_title ;;
    console_log report_rule ;;
    results <- check_loop maxLength cs [] ;;
    console_log report_bottom ;;
    let allSuccess := forallb (fun r => truthy (success r)) results in
    console_log (summary_banner (chalk_colors env) allSuccess) ;;
    ret allSuccess).

Definition healthCheck : M bool := healthCheck_over checks.

(* ------------------------------------------------------------------ *)
(** ** The setup wizard ([MCPIDESetup]) *)

Definition spinner_start (text : jsstring) : M unit := emit (SpinnerStart text).
Definition spinner_succeed (text : jsstring) : M unit := emit (SpinnerSucceed text).
Definition spinner_fail (text : jsstring) : M unit := emit (SpinnerFail text).
Definition spinner_warn (text : jsstring) : M unit := emit (SpinnerWarn text).

Definition banner : jsstring := js "
╔══════════════════════════════════════════════════════════╗
║                                                          ║
║     🚀 MCP IDE Setup Wizard                            ║
║     Transform your IDE into an AI powerhouse            ║
║                                                          ║
╚══════════════════════════════════════════════════════════╝
".

(** [try { execSync(command); detectedIDEs.push(label); } catch {}] *)
Definition detect (command label : string) : M (list jsstring) :=
  try_catch (execSync (js command) ;; ret [js label]) (fun _ => ret []).

Definition detectEnvironment : M (list jsstring) :=
  spinner_start (js "Detecting environment...") ;;
  code <- detect "code --version" "VS Code" ;;
  idea <- detect "idea --version" "IntelliJ IDEA" ;;
  cursor <- detect "cursor --version" "Cursor" ;;
  let detectedIDEs := code ++ idea ++ cursor in
  with_env (fun env =>
    let nodeVersion := process_version env in
    let majorVersion := major_version nodeVersion in
    spinner_succeed (js "Environment detected") ;;
    (if lt18 majorVersion then
       console_log (chalk (chalk_colors env) [red]
         (js "⚠️  Node.js 18+ required (you have " ++ nodeVersion ++ js ")")) ;;
       process_exit 1
     else ret tt) ;;
    (match detectedIDEs with
     | _ :: _ =>
       console_log (chalk (chalk_colors env) [green]
         (js "✓ Found: " ++ join (js ", ") detectedIDEs))
     | [] => ret tt
     end) ;;
    ret detectedIDEs).

(** [this.config = await inquirer.prompt(questions)]: the operator's
    selection is whatever the questionnaire returns. *)
Definition askQuestions : M Config :=
  fun env h => (Ret (questionnaire_oracle env h), Questionnaire :: h).

(** [if (x)] on a field that may be undefined. *)
Definition truthy_flag (o : option bool) : bool :=
  match o with Some b => b | None => false end.

Definition truthy_text (o : option jsstring) : bool :=
  match o with Some (_ :: _) => true | _ => false end.

Definition installMCPIntelligence (config : Config) : M unit :=
  if truthy_flag (installGlobal config)
  then execSync (js "npm install -g @mcp-intelligence/core @mcp-intelligence/cli") ;; ret tt
  else execSync (js "npm install @mcp-intelligence/core @mcp-intelligence/cli") ;; ret tt.

(** [for (const ext of extensions) { try { execSync(...) } catch {} }] *)
Fixpoint install_extensions (extensions : list jsstring) : M unit :=
  match extensions with
  | [] => ret tt
  | ext :: rest =>
    try_catch (execSync (js "code --install-extension " ++ ext) ;; ret tt)
              (fun _ => ret tt) ;;
    install_extensions rest
  end.

Definition installIDEExtensions (config : Config) : M unit :=
  let ide := ide config in
  let ai := ai config in
  if str_eqb ide (js "vscode") then
    let extensions :=
      [js "mcp.mcp-intelligence"]
      ++ (if str_eqb ai (js "claude") || str_eqb ai (js "both")
          then [js "Anthropic.claude-vscode"] else [])
      ++ (if str_eqb ai (js "copilot") || str_eqb ai (js "both")
          then [js "GitHub.copilot"] else []) in
    install_extensions extensions
  else if str_eqb ide (js "jetbrains") then
    with_env (fun env =>
      console_log (chalk (chalk_colors env) [yellow] (js "
  ℹ️  Please install JetBrains plugins manually:")) ;;
      console_log (js "     1. Open your JetBrains IDE") ;;
      console_log (js "     2. Go to Settings → Plugins") ;;
      console_log (js "     3. Search for " ++ [34] ++ js "MCP Intelligence" ++ [34]) ;;
      console_log (js "     4. Click Install
"))
  else if str_eqb ide (js "cursor") then
    with_env (fun env =>
      console_log (chalk (chalk_colors env) [green] (js "  ✓ Cursor has built-in AI support")))
  else ret tt.

Definition settings_document (env : Env) (useCase : jsstring) : value :=
  VObj [ (js "mcp", VObj [
    (js "intelligence", VObj [
       (js "enabled", VBool true);
       (js "mode", VStr (if str_eqb useCase (js "enterprise") then js "accuracy" else js "balanced"));
       (js "routing", VStr (js "semantic"));
       (js "caching", VBool true) ]);
    (js "servers", getMCPServers env useCase) ]) ].

Definition configureSettings (config : Config) : M unit :=
  with_env (fun env =>
    let document := settings_document env (useCase config) in
    let configPath := getConfigPath (ide config) in
    fs_mkdir (path_dirname configPath) ;;
    fs_writeFile configPath (Stringified document 2)).

Definition setupAPIKeys (config : Config) : M unit :=
  with_env (fun env =>
    if negb (truthy_text (apiKey config)) then
      console_log (chalk (chalk_colors env) [yellow] (js "
  ⚠️  Remember to add your API key later"))
    else
      let key := match apiKey config with Some k => VStr k | None => VUndefined end in
      let configDir := path_join (os_homedir env) (js ".mcp-intelligence") in
      fs_mkdir configDir ;;
      let credentials :=
        VObj [ (js "claude",
                if str_eqb (ai config) (js "claude") || str_eqb (ai config) (js "both")
                then key else VNull);
               (js "github", VNull) ] in
      fs_writeFile (path_join configDir (js "credentials.json")) (Stringified credentials 2) ;;
      fs_chmod (path_join configDir (js "credentials.json")) 384).

(** The [samples] object literal. *)
Definition samples : list (jsstring * value) :=
  [ (js "web", VStr (js "// test.js - Try pressing Ctrl+Enter after this comment
// TODO: Create a React component that fetches and displays user data

"));
    (js "data", VStr (js "# test.py - Try asking Claude to help with this
# TODO: Load a CSV file and create visualizations

"));
    (js "mobile", VStr (js "// test.swift - Try Copilot suggestions here
// TODO: Create a SwiftUI view with a list

")) ].

(** [fs.writeFile] rejects data that is not a string (or a buffer). *)
(** [fs.writeFile] refuses data that is not a string with a TypeError; of
    its message only the beginning is kept. *)
Definition createSampleProject (config : Config) : M unit :=
  let sample := js_or (object_get samples (useCase config)) (object_get samples (js "web")) in
  match sample with
  | VStr s => fs_writeFile (js "mcp-test-file.js") (Text s)
  | _ => fun _ h => (Throw (js "The " ++ [34] ++ js "data" ++ [34] ++ js " argument must be of type string"), h)
  end.

(** A Step Descriptor. *)
Record step := { step_name : jsstring; fn : M unit }.

(** The [steps] array. *)
Definition steps (config : Config) : list step :=
  [ {| step_name := js "Install MCP Intelligence"; fn := installMCPIntelligence config |};
    {| step_name := js "Install IDE Extensions"; fn := installIDEExtensions config |};
    {| step_name := js "Configure Settings"; fn := configureSettings config |};
    {| step_name := js "Set up API Keys"; fn := setupAPIKeys config |};
    {| step_name := js "Create Sample Project"; fn := createSampleProject config |} ].

(** One iteration of the loop of [install]. *)
Definition run_step (s : step) : M unit :=
  spinner_start (step_name s) ;;
  try_catch
    (fn s ;; spinner_succeed (step_name s))
    (fun error_message =>
       spinner_fail (step_name s) ;;
       with_env (fun env =>
         console_error (chalk (chalk_colors env) [red] (js "  Error: " ++ error_message))) ;;
       continueAnyway <- confirm (js "Continue anyway?") ;;
       if negb continueAnyway then process_exit 1 else ret tt).

(** [for (const step of steps) { ... }] *)
Fixpoint install_loop (l : list step) : M unit :=
  match l with
  | [] => ret tt
  | s :: rest => run_step s ;; install_loop rest
  end.

(** ['\n' + chalk.cyan.bold('📦 Installing components...\n')] *)
Definition install_headline (colors : bool) : jsstring :=
  [10] ++ chalk colors [cyan; bold] (js "📦 Installing components...
").

Definition install (config : Config) : M unit :=
  with_env (fun env => console_log (install_headline (chalk_colors env))) ;;
  install_loop (steps config).

Definition verify : M unit :=
  with_env (fun env =>
    console_log ([10] ++ chalk (chalk_colors env) [cyan; bold] (js "🔍 Verifying installation...
")) ;;
    spinner_start (js "Running health check") ;;
    try_catch
      (execSync (js "mcp-ide health-check") ;;
       spinner_succeed (js "Health check passed") ;;
       console_log (chalk (chalk_colors env) [green] (js "
✅ All systems operational!")))
      (fun _ =>
         spinner_warn (js "Health check needs attention") ;;
         console_log (chalk (chalk_colors env) [yellow] (js "
⚠️  Some components need configuration")) ;;
         console_log (js "  Run `mcp-ide health-check` for details"))).

Definition showNextSteps (config : Config) : M unit :=
  with_env (fun env =>
    let c := chalk (chalk_colors env) in
    console_log ([10] ++ c [green; bold] (js "🎉 Setup Complete!
")) ;;
    console_log (c [cyan] (js "Next steps:")) ;;
    console_log (js "1. Open your IDE") ;;
    (if str_eqb (ide config) (js "vscode") then
       console_log (js "2. Open the test file: " ++ c [white] (js "code mcp-test-file.js")) ;;
       console_log (js "3. Try the shortcuts:") ;;
       console_log (js "   • " ++ c [white] (js "Ctrl+Enter") ++ js " - Ask Claude") ;;
       console_log (js "   • " ++ c [white] (js "Ctrl+Shift+E") ++ js " - Explain code") ;;
       console_log (js "   • " ++ c [white] (js "Ctrl+Shift+R") ++ js " - Refactor")
     else ret tt) ;;
    console_log ([10] ++ c [gray] (js "Resources:")) ;;
    console_log (js "• Documentation: https://github.com/rashidazarang/mcp-ide-playbooks") ;;
    console_log (js "• Discord: https://discord.gg/mcp-intelligence") ;;
    console_log (js "• Issues: https://github.com/rashidazarang/mcp-ide-playbooks/issues") ;;
    console_log ([10] ++ c [magenta]
      (js "💡 Tip: Run `mcp-ide metrics` to see your performance gains!"))).

(** Quick mode sets the selection from the flags and installs at once;
    interactive mode detects, asks, installs, verifies and explains. *)
Definition run : M unit :=
  emit ConsoleClear ;;
  with_env (fun env =>
    console_log (chalk (chalk_colors env) [cyan] banner) ;;
    if opt_vscode env && opt_claude env then
      install {| ide := js "vscode"; ai := js "claude"; useCase := js "web";
                 installGlobal := None; apiKey := None |}
    else
      detectEnvironment ;;
      config <- askQuestions ;;
      install config ;;
      verify ;;
      showNextSteps config).

(** [setup.run().catch(error => { console.error(...); process.exit(1); })] *)
Definition main : M unit :=
  try_catch run
    (fun error_message =>
       with_env (fun env =>
         console_error (chalk (chalk_colors env) [red] (js "
❌ Setup failed:") ++ js " " ++ error_message)) ;;
       process_exit 1).

(* ------------------------------------------------------------------ *)
(** ** Release versions *)

(** A release of Node.js reports [v], the major version in decimal, a
    full stop and the rest. *)
Definition decimal_value (digits : list N) : N :=
  fold_left (fun a d => a * 10 + d) digits 0.

Definition release (major_digits : list N) (rest : jsstring) : jsstring :=
  118 :: map (N.add 48) major_digits ++ 46 :: rest.

(* ------------------------------------------------------------------ *)
(** ** Reading a history *)

(** The lines written with [console.log], oldest first. *)
Fixpoint console_lines (h : history) : list jsstring :=
  match h with
  | [] => []
  | ConsoleLog line :: r => console_lines r ++ [line]
  | _ :: r => console_lines r
  end.

(** How many times the spinner was started on [name]: once for each
    time the loop of [install] entered the step of that name. *)
Fixpoint started (name : jsstring) (events : list event) : nat :=
  match events with
  | [] => 0%nat
  | SpinnerStart text :: r =>
    ((if str_eqb text name then 1 else 0) + started name r)%nat
  | _ :: r => started name r
  end.

(** What the body of a check or of a step may do: run commands, use the
    file system, write lines; never the spinner, never a prompt. *)
Definition action_event (e : event) : bool :=
  match e with
  | ConsoleLog _ | ExecSync _ | FsAccess _ | FsReadFile _
  | FsMkdir _ | FsWriteFile _ _ | FsChmod _ _ => true
  | _ => false
  end.

(** The operator is asked something. *)
Definition prompt_event (e : event) : bool :=
  match e with
  | Confirm _ | Questionnaire => true
  | _ => false
  end.

(** What a check may do: the same, without writing lines. *)
Definition probe_event (e : event) : bool :=
  match e with
  | ExecSync _ | FsAccess _ | FsReadFile _ => true
  | _ => false
  end.

(** A computation that only adds action events and never leaves through
    [process.exit]. *)
Definition contained {A} (m : M A) : Prop :=
  forall env h,
    (exists events, snd (m env h) = events ++ h /\ forallb action_event events = true)
    /\ forall code, fst (m env h) <> Exit code.

(** A check that always returns a result, having only probed. *)
Definition returns_quietly (c : check_descriptor) : Prop :=
  forall env h, exists result events,
    check c env h = (Ret result, events ++ h) /\ forallb probe_event events = true.

(** The checks of [cs] were each called once, in order, each followed by
    its row, taking the history from [h] to [h'] with results [rs]. *)
Inductive checks_ran (env : Env) (maxLength : nat) :
    list check_descriptor -> history -> list check_result -> history -> Prop :=
| ran_none h : checks_ran env maxLength [] h [] h
| ran_next c rest h result h1 rs h' :
    check c env h = (Ret result, h1) ->
    checks_ran env maxLength rest
      (ConsoleLog (report_row (chalk_colors env) maxLength (check_name c) result) :: h1) rs h' ->
    checks_ran env maxLength (c :: rest) h (result :: rs) h'.

Definition report_rows (colors : bool) (cs : list check_descriptor)
    (rs : list check_result) : list jsstring :=
  map (fun cr => report_row colors (max_name_length cs) (check_name (fst cr)) (snd cr))
      (combine cs rs).

(** What [healthCheck] over [cs] does from history [h]. *)
Definition aggregates (env : Env) (cs : list check_descriptor) (h : history) : Prop :=
  let colors := chalk_colors env in
  let intro := chalk colors [cyan] (js "
🔍 Running MCP IDE Health Check...
") in
  exists (rs : list check_result) (h' : history),
    checks_ran env (max_name_length cs) cs
      (ConsoleLog report_rule :: ConsoleLog report_title :: ConsoleLog report_top
         :: ConsoleLog intro :: h) rs h'
    /\ length rs = length cs
    /\ let overall := forallb (fun r => truthy (success r)) rs in
       healthCheck_over cs env h
         = (Ret overall,
            ConsoleLog (summary_banner colors overall) :: ConsoleLog report_bottom :: h')
       /\ console_lines (snd (healthCheck_over cs env h))
          = console_lines h ++ [intro; report_top; report_title; report_rule]
            ++ report_rows colors cs rs
            ++ [report_bottom; summary_banner colors overall].

(** No escape character and no line break. *)
Definition plain (s : jsstring) : bool :=
  forallb (fun c => negb (c =? 27) && negb (c =? 10)) s.

(** [creds.claude] on a parsed value that is not [null]. *)
Definition field_of (v : value) (key : jsstring) : value :=
  match v with
  | VObj fields => object_get fields key
  | _ => VUndefined
  end.

(** A secret or [null], as [setupAPIKeys] writes a field. *)
Definition secret_or_null (v : value) : bool :=
  match v with
  | VNull => true
  | VStr (_ :: _) => true
  | _ => false
  end.

Definition credentials_path (env : Env) : jsstring :=
  path_join (configDir env) (js "credentials.json").

(* ------------------------------------------------------------------ *)
(** ** Sample environments *)

Definition quick_selection : Config :=
  {| ide := js "vscode"; ai := js "claude"; useCase := js "web";
     installGlobal := None; apiKey := None |}.

(** A machine on which everything works and the operator agrees. *)
Definition calm (version : string) (colors : bool) : Env :=
  {| process_version := js version;
     opt_vscode := false;
     opt_claude := false;
     chalk_colors := colors;
     os_homedir := js "/home/dev";
     process_env := fun _ => None;
     exec_oracle := fun _ _ => inl [];
     confirm_oracle := fun _ => true;
     questionnaire_oracle := fun _ => quick_selection;
     fs_oracle := fun _ _ => None;
     read_oracle := fun _ _ =>
       Parsed (VObj [(js "claude", VStr (js "sk-ant-0123")); (js "github", VNull)]) |}.

Definition with_version (version : jsstring) (env : Env) : Env :=
  {| process_version := version;
     opt_vscode := opt_vscode env;
     opt_claude := opt_claude env;
     chalk_colors := chalk_colors env;
     os_homedir := os_homedir env;
     process_env := process_env env;
     exec_oracle := exec_oracle env;
     confirm_oracle := confirm_oracle env;
     questionnaire_oracle := questionnaire_oracle env;
     fs_oracle := fs_oracle env;
     read_oracle := read_oracle env |}.

(** The same machine started as [create-mcp-ide --vscode --claude]. *)
Definition with_quick_flags (env : Env) : Env :=
  {| process_version := process_version env;
     opt_vscode := true;
     opt_claude := true;
     chalk_colors := chalk_colors env;
     os_homedir := os_homedir env;
     process_env := process_env env;
     exec_oracle := exec_oracle env;
     confirm_oracle := confirm_oracle env;
     questionnaire_oracle := questionnaire_oracle env;
     fs_oracle := fs_oracle env;
     read_oracle := read_oracle env |}.

(** The same machine with another credential store. *)
Definition with_store (store : read_outcome) (env : Env) : Env :=
  {| process_version := process_version env;
     opt_vscode := opt_vscode env;
     opt_claude := opt_claude env;
     chalk_colors := chalk_colors env;
     os_homedir := os_homedir env;
     process_env := process_env env;
     exec_oracle := exec_oracle env;
     confirm_oracle := confirm_oracle env;
     questionnaire_oracle := questionnaire_oracle env;
     fs_oracle := fs_oracle env;
     read_oracle := fun _ _ => store |}.

(** The same machine without a credential store: [fs.access] rejects. *)
Definition without_store (env : Env) : Env :=
  {| process_version := process_version env;
     opt_vscode := opt_vscode env;
     opt_claude := opt_claude env;
     chalk_colors := chalk_colors env;
     os_homedir := os_homedir env;
     process_env := process_env env;
     exec_oracle := exec_oracle env;
     confirm_oracle := confirm_oracle env;
     questionnaire_oracle := questionnaire_oracle env;
     fs_oracle := fun h request =>
       match request with
       | Access _ => Some (js "ENOENT: no such file or directory")
       | _ => fs_oracle env h request
       end;
     read_oracle := read_oracle env |}.

(** A machine on which [npm install] fails, with the operator's answer to
    the question that follows. *)
Definition npm_down (answer : bool) : Env :=
  {| process_version := js "v20.11.0";
     opt_vscode := true;
     opt_claude := true;
     chalk_colors := false;
     os_homedir := js "/home/dev";
     process_env := fun _ => None;
     exec_oracle := fun _ command =>
       if starts_with command (js "npm install") then inr (js "Command failed: npm install")
       else inl [];
     confirm_oracle := fun _ => answer;
     questionnaire_oracle := fun _ => quick_selection;
     fs_oracle := fun _ _ => None;
     read_oracle := fun _ _ => ReadRejects (js "ENOENT") |}.

(** A machine without the editor: every [code] command fails. *)
Definition no_editor : Env :=
  {| process_version := js "v20.11.0";
     opt_vscode := false;
     opt_claude := false;
     chalk_colors := false;
     os_homedir := js "/home/dev";
     process_env := fun _ => None;
     exec_oracle := fun _ command =>
       if starts_with command (js "code ") then inr (js "spawnSync /bin/sh ENOENT")
       else inl [];
     confirm_oracle := fun _ => true;
     questionnaire_oracle := fun _ => quick_selection;
     fs_oracle := fun _ _ => None;
     read_oracle := fun _ _ =>
       Parsed (VObj [(js "claude", VStr (js "sk-ant-0123")); (js "github", VNull)]) |}.

Definition all_null_store : read_outcome :=
  Parsed (VObj [(js "claude", VNull); (js "github", VNull)]).

Definition empty_key_store : read_outcome :=
  Parsed (VObj [(js "claude", VStr []); (js "github", VNull)]).

Definition not_configured : check_result :=
  {| success := VBool false; message := js "Not configured" |}.

(** A machine on which no directory can be created, so that the third
    step, "Configure Settings", fails; with the operator's answer. *)
Definition read_only_disk (answer : bool) : Env :=
  {| process_version := js "v20.11.0";
     opt_vscode := true;
     opt_claude := true;
     chalk_colors := false;
     os_homedir := js "/home/dev";
     process_env := fun _ => None;
     exec_oracle := fun _ _ => inl [];
     confirm_oracle := fun _ => answer;
     questionnaire_oracle := fun _ => quick_selection;
     fs_oracle := fun _ request =>
       match request with
       | Mkdir _ => Some (js "EACCES: permission denied")
       | _ => None
       end;
     read_oracle := fun _ _ => ReadRejects (js "ENOENT") |}.

(** The question the loop of [install] asks after a failure, and the two
    events before it. *)
Definition failure_events (env : Env) (s : step) (error_message : jsstring) : list event :=
  [ Confirm (js "Continue anyway?");
    ConsoleError (chalk (chalk_colors env) [red] (js "  Error: " ++ error_message));
    SpinnerFail (step_name s) ].

(* ------------------------------------------------------------------ *)
(** ** The command line of [mcp-ide] *)

(** [program.command('health-check').action(async () => { ...
    await cli.healthCheck(); })]: the boolean is not used. *)
Definition health_check_command : M unit :=
  healthCheck ;; ret tt.

(** [fixes.extensions] *)
Definition fix_extensions : M unit :=
  console_log (js "Installing missing extensions...") ;;
  execSync (js "code --install-extension Anthropic.claude-vscode") ;;
  execSync (js "code --install-extension mcp.mcp-intelligence") ;;
  ret tt.

(** [fixes.mcp] *)
Definition fix_mcp : M unit :=
  console_log (js "Installing MCP Intelligence...") ;;
  execSync (js "npm install -g @mcp-intelligence/core") ;;
  ret tt.

(** [fixes.all] *)
Definition fix_all : M unit :=
  fix_extensions ;; fix_mcp.

(** Calling, as [fixFn()], a member that [fixes] only inherits from
    [Object.prototype]: [constructor], [toString] and [isPrototypeOf]
    return; [__proto__] is not a function, and the others need a [this]
    that is an object; both are TypeErrors. *)
Definition call_inherited (key : jsstring) : M unit :=
  if existsb (str_eqb key) (map js ["constructor"; "toString"; "isPrototypeOf"]%string)
  then ret tt
  else fun _ h => (Throw (js "TypeError"), h).

(** [const fixFn = fixes[component] || fixes.all; await fixFn();] *)
Definition fixFn (component : jsstring) : M unit :=
  if str_eqb component (js "extensions") then fix_extensions
  else if str_eqb component (js "mcp") then fix_mcp
  else if str_eqb component (js "all") then fix_all
  else if inherited component then call_inherited component
  else fix_all.

(** [MCPIDECli.fix] ([fix] itself is a keyword here) *)
Definition fix_method (component : jsstring) : M unit :=
  with_env (fun env =>
    console_log (chalk (chalk_colors env) [cyan] (js "
🔧 Fixing issues...
")) ;;
    fixFn component ;;
    console_log (chalk (chalk_colors env) [green] (js "
✅ Issues fixed! Run `mcp-ide health-check` to verify.
"))).

(** [.command('fix [component]').action(async (component = 'all') => ...)] *)
Definition fix_command (argument : option jsstring) : M unit :=
  fix_method (match argument with Some component => component | None => js "all" end).

(* ------------------------------------------------------------------ *)
(** ** The questionnaire of [askQuestions] *)

Definition ide_choices : list jsstring :=
  map js ["vscode"; "jetbrains"; "cursor"; "eclipse"; "xcode"; "neovim"]%string.

Definition ai_choices : list jsstring :=
  map js ["claude"; "copilot"; "both"; "cursor-ai"]%string.

Definition useCase_choices : list jsstring :=
  map js ["web"; "data"; "mobile"; "enterprise"; "game"; "ai"]%string.

(** [when: (answers) => answers.ai === 'claude' || answers.ai === 'both'] *)
Definition apiKey_when (ai : jsstring) : bool :=
  str_eqb ai (js "claude") || str_eqb ai (js "both").

(** [validate]: [true], or the message shown before asking again. *)
Definition apiKey_validate (input : jsstring) : value :=
  match input with
  | [] => VBool true
  | _ :: _ =>
    if starts_with input (js "sk-ant-") then VBool true
    else VStr (js "Invalid API key format (should start with sk-ant-)")
  end.

(** A selection the questionnaire can return, as [inquirer] works: a list
    question gives the value of one of its choices, a confirm question a
    boolean, and an input question is left out when [when] says so and
    otherwise gives a text for which [validate] returned [true]. *)
Definition admitted (config : Config) : bool :=
  existsb (str_eqb (ide config)) ide_choices
  && existsb (str_eqb (ai config)) ai_choices
  && existsb (str_eqb (useCase config)) useCase_choices
  && match installGlobal config with Some _ => true | None => false end
  && match apiKey config with
     | Some input =>
       apiKey_when (ai config)
       && match apiKey_validate input with VBool true => true | _ => false end
     | None => negb (apiKey_when (ai config))
     end.

(* ------------------------------------------------------------------ *)
(** ** Reading a history, continued *)

(** The names on which the spinner was started, oldest first. *)
Fixpoint started_names (events : list event) : list jsstring :=
  match events with
  | [] => []
  | SpinnerStart text :: r => started_names r ++ [text]
  | _ :: r => started_names r
  end.

Definition count_events (p : event -> bool) (events : list event) : nat :=
  length (filter p events).

Definition is_confirm (e : event) : bool :=
  match e with Confirm _ => true | _ => false end.

Definition is_fail (e : event) : bool :=
  match e with SpinnerFail _ => true | _ => false end.

Definition is_succeed (e : event) : bool :=
  match e with SpinnerSucceed _ => true | _ => false end.

Definition is_exec (e : event) : bool :=
  match e with ExecSync _ => true | _ => false end.

(** Events that change the file system. *)
Definition is_write (e : event) : bool :=
  match e with
  | FsMkdir _ | FsWriteFile _ _ | FsChmod _ _ => true
  | _ => false
  end.

(** The commands run, oldest first. *)
Fixpoint commands (events : list event) : list jsstring :=
  match events with
  | [] => []
  | ExecSync command :: r => commands r ++ [command]
  | _ :: r => commands r
  end.

(** The credential store [setupAPIKeys] writes for a key. *)
Definition credentials_document (ai key : jsstring) : value :=
  VObj [ (js "claude",
          if str_eqb ai (js "claude") || str_eqb ai (js "both") then VStr key else VNull);
         (js "github", VNull) ].

(** A selection made in the questionnaire, with a key. *)
Definition keyed_selection : Config :=
  {| ide := js "cursor"; ai := js "both"; useCase := js "data";
     installGlobal := Some true; apiKey := Some (js "sk-ant-0123") |}.

(** The commands each step of [install] runs, whether they succeed or
    not: the package install, the extension installs, and none for the
    three steps that only write files. *)
Definition install_plan (config : Config) : list (list jsstring) :=
  [ [ if truthy_flag (installGlobal config)
      then js "npm install -g @mcp-intelligence/core @mcp-intelligence/cli"
      else js "npm install @mcp-intelligence/core @mcp-intelligence/cli" ];
    if str_eqb (ide config) (js "vscode") then
      map (fun ext => js "code --install-extension " ++ ext)
        ([js "mcp.mcp-intelligence"]
         ++ (if str_eqb (ai config) (js "claude") || str_eqb (ai config) (js "both")
             then [js "Anthropic.claude-vscode"] else [])
         ++ (if str_eqb (ai config) (js "copilot") || str_eqb (ai config) (js "both")
             then [js "GitHub.copilot"] else []))
    else [];
    []; []; [] ].

(** A computation that runs exactly these commands, whatever they
    answer. *)
Definition runs_exactly {A} (plan : list jsstring) (m : M A) : Prop :=
  forall env h, exists events, snd (m env h) = events ++ h /\ commands events = plan.

Definition is_questionnaire (e : event) : bool :=
  match e with Questionnaire => true | _ => false end.

(* ------------------------------------------------------------------ *)
(** ** The three stores that are not configured *)

(** [fs.access] rejects: there is no credential store. *)
Definition store_missing (env : Env) (h : history) : Prop :=
  exists msg, fs_oracle env h (Access (credentials_path env)) = Some msg.

(** The store is there but cannot be read as JSON. *)
Definition store_unreadable (env : Env) (h : history) : Prop :=
  fs_oracle env h (Access (credentials_path env)) = None
  /\ exists msg,
       read_oracle env (FsAccess (credentials_path env) :: h) (credentials_path env)
       = Malformed msg
       \/ read_oracle env (FsAccess (credentials_path env) :: h) (credentials_path env)
          = ReadRejects msg.

(** The store parses to an object whose credential fields are [null]. *)
Definition store_all_null (env : Env) (h : history) : Prop :=
  fs_oracle env h (Access (credentials_path env)) = None
  /\ exists fields,
       read_oracle env (FsAccess (credentials_path env) :: h) (credentials_path env)
       = Parsed (VObj fields)
       /\ object_get fields (js "claude") = VNull
       /\ object_get fields (js "github") = VNull.

(* ------------------------------------------------------------------ *)
(** ** Scripts of lines and commands *)

(** A line to print or a command to run. *)
Inductive action :=
| Say (line : jsstring)
| Run (command : jsstring).

Definition event_of (a : action) : event :=
  match a with
  | Say line => ConsoleLog line
  | Run command => ExecSync command
  end.

(** What a script has left in the history once it was gone through. *)
Definition trail (script : list action) : list event := rev (map event_of script).

(** Going through a script in order, stopping at the first command that
    fails, with its error. *)
Fixpoint perform (env : Env) (script : list action) (h : history)
    : outcome unit * history :=
  match script with
  | [] => (Ret tt, h)
  | Say line :: rest => perform env rest (ConsoleLog line :: h)
  | Run command :: rest =>
    match exec_oracle env h command with
    | inl _ => perform env rest (ExecSync command :: h)
    | inr msg => (Throw msg, ExecSync command :: h)
    end
  end.

(** Every command of the script succeeds when its turn comes. *)
Fixpoint all_succeed (env : Env) (script : list action) (h : history) : Prop :=
  match script with
  | [] => True
  | Say line :: rest => all_succeed env rest (ConsoleLog line :: h)
  | Run command :: rest =>
    (exists out, exec_oracle env h command = inl out)
    /\ all_succeed env rest (ExecSync command :: h)
  end.

(** The lines and commands [fix] stands for, by component. *)
Definition fix_script (colors : bool) (component : jsstring) : list action :=
  let extensions :=
    [ Say (js "Installing missing extensions...");
      Run (js "code --install-extension Anthropic.claude-vscode");
      Run (js "code --install-extension mcp.mcp-intelligence") ] in
  let mcp :=
    [ Say (js "Installing MCP Intelligence...");
      Run (js "npm install -g @mcp-intelligence/core") ] in
  [ Say (chalk colors [cyan] (js "
🔧 Fixing issues...
")) ]
  ++ (if str_eqb component (js "extensions") then extensions
      else if str_eqb component (js "mcp") then mcp
      else extensions ++ mcp)
  ++ [ Say (chalk colors [green] (js "
✅ Issues fixed! Run `mcp-ide health-check` to verify.
")) ].

(* ================================================================== *)
(** * Properties *)

(* ------------------------------------------------------------------ *)
(** ** Strings *)

Lemma str_eqb_refl (a : jsstring) : str_eqb a a = true.
Proof.
  induction a as [|c a IH]; simpl; [reflexivity|].
  now rewrite N.eqb_refl, IH.
Qed.

Lemma str_eqb_eq (a b : jsstring) : str_eqb a b = true <-> a = b.
Proof.
  split; [|intros ->; apply str_eqb_refl].
  revert b; induction a as [|c a IH]; intros [|d b]; simpl; try discriminate; auto.
  intros H. apply andb_prop in H as [Hc Hr].
  apply N.eqb_eq in Hc. f_equal; auto.
Qed.

Lemma str_eqb_neq (a b : jsstring) : a <> b -> str_eqb a b = false.
Proof.
  intros H. destruct (str_eqb a b) eqn:E; [|reflexivity].
  apply str_eqb_eq in E. contradiction.
Qed.

Lemma starts_with_app (p b : jsstring) : starts_with (p ++ b) p = true.
Proof.
  induction p as [|c p IH]; simpl; [reflexivity|].
  now rewrite N.eqb_refl, IH.
Qed.

Lemma includes_prefix (s p : jsstring) : starts_with s p = true -> includes s p = true.
Proof. destruct s; simpl; intros ->; reflexivity. Qed.

Lemma includes_app (a p b : jsstring) : includes (a ++ p ++ b) p = true.
Proof.
  induction a as [|c a IH].
  - exact (includes_prefix (p ++ b) p (starts_with_app p b)).
  - simpl. rewrite IH. apply orb_true_r.
Qed.

Lemma includes_end (a p : jsstring) : includes (a ++ p) p = true.
Proof. pose proof (includes_app a p []) as H. now rewrite app_nil_r in H. Qed.

(* ------------------------------------------------------------------ *)
(** ** Release versions

    On the version string of a release the wizard and the health check
    read the major version back. *)

Lemma digit_of_decimal (d : N) : d < 10 -> digit_of 10 (48 + d) = Some d.
Proof.
  intros H. unfold digit_of.
  assert (E1 : (48 <=? 48 + d) = true) by (apply N.leb_le; lia).
  assert (E2 : (48 + d <=? 57) = true) by (apply N.leb_le; lia).
  rewrite E1, E2. cbn [andb].
  replace (48 + d - 48) with d by lia.
  now rewrite (proj2 (N.ltb_lt d 10) H).
Qed.

Lemma read_digits_decimal (digits : list N) :
  Forall (fun d => d < 10) digits ->
  forall a, read_digits 10 (map (N.add 48) digits) (Some a)
            = Some (fold_left (fun a d => a * 10 + d) digits a).
Proof.
  induction 1 as [|d digits Hd _ IH]; intros a; cbn [map read_digits fold_left];
    [reflexivity|].
  rewrite (digit_of_decimal Hd). apply IH.
Qed.

Lemma before_dot_digits (digits : list N) (rest : jsstring) :
  Forall (fun d => d < 10) digits ->
  before_dot (map (N.add 48) digits ++ 46 :: rest) = map (N.add 48) digits.
Proof.
  induction 1 as [|d digits Hd _ IH]; cbn [map app before_dot].
  - reflexivity.
  - assert (E : (48 + d =? 46) = false) by (apply N.eqb_neq; lia).
    now rewrite E, IH.
Qed.

Lemma small_digit (d : N) :
  d < 10 -> d = 0 \/ d = 1 \/ d = 2 \/ d = 3 \/ d = 4 \/ d = 5 \/ d = 6 \/ d = 7 \/ d = 8 \/ d = 9.
Proof. lia. Qed.

(** Computes the code unit [48 + k] of a known digit [k]. *)
Ltac literal_digit :=
  repeat match goal with
  | |- context [48 + ?k] =>
    let v := eval vm_compute in (48 + k) in change (48 + k) with v in *
  | H : context [48 + ?k] |- _ =>
    let v := eval vm_compute in (48 + k) in change (48 + k) with v in *
  end.

Lemma parseInt_decimal (d : N) (digits : list N) :
  Forall (fun d => d < 10) (d :: digits) ->
  parseInt (map (N.add 48) (d :: digits)) = Some (Z.of_N (decimal_value (d :: digits))).
Proof.
  intros H. inversion H as [|? ? Hd Hrest]; subst.
  assert (Hread : read_digits 10 (map (N.add 48) (d :: digits)) None
                  = Some (decimal_value (d :: digits))).
  { cbn [map read_digits]. rewrite (digit_of_decimal Hd).
    unfold decimal_value. cbn [fold_left]. change (0 * 10 + d) with d.
    apply (read_digits_decimal Hrest). }
  cbn [map] in *.
  destruct (small_digit Hd) as [->|[->|[->|[->|[->|[->|[->|[->|[->| ->]]]]]]]]];
    literal_digit.
  2-10: unfold parseInt; cbn -[read_digits decimal_value Z.of_N]; rewrite Hread; reflexivity.
  destruct digits as [|d2 digits].
  - reflexivity.
  - inversion Hrest as [|? ? Hd2 _]; subst. cbn [map] in *.
    destruct (small_digit Hd2) as [->|[->|[->|[->|[->|[->|[->|[->|[->| ->]]]]]]]]];
      literal_digit;
      unfold parseInt; cbn -[read_digits decimal_value Z.of_N]; rewrite Hread; reflexivity.
Qed.

Lemma major_version_release (d : N) (digits : list N) (rest : jsstring) :
  Forall (fun d => d < 10) (d :: digits) ->
  major_version (release (d :: digits) rest)
  = Some (Z.of_N (decimal_value (d :: digits))).
Proof.
  intros H. unfold major_version, release.
  cbn [before_dot]. change (118 =? 46) with false. cbn iota.
  rewrite (before_dot_digits _ H). unfold substring1. cbn [tl].
  apply (parseInt_decimal H).
Qed.

(* ------------------------------------------------------------------ *)
(** ** Configuration Resolver *)

Lemma getMCPServers_fallback (env : Env) (useCase : jsstring) :
  useCase <> js "web" -> useCase <> js "data" -> useCase <> js "enterprise" ->
  inherited useCase = false ->
  getMCPServers env useCase = web_servers.
Proof.
  intros Hw Hd He Hi. unfold getMCPServers, object_get at 1, servers.
  cbn [own_property].
  rewrite (str_eqb_neq (not_eq_sym Hw)), (str_eqb_neq (not_eq_sym Hd)),
    (str_eqb_neq (not_eq_sym He)), Hi.
  reflexivity.
Qed.


(** Called with a name an object inherits, [getMCPServers] returns the
    member it finds on [Object.prototype] instead of the web preset. *)
Lemma getMCPServers_inherited_name (env : Env) :
  ~ In (js "constructor") [js "web"; js "data"; js "enterprise"]
  /\ getMCPServers env (js "constructor") = VBuiltin (js "Object.prototype.constructor")
  /\ getMCPServers env (js "constructor") <> web_servers.
Proof.
  split; [|split].
  - cbn [In]. intros [H|[H|[H|[]]]]; discriminate H.
  - reflexivity.
  - discriminate.
Qed.




(** C6: the mapping from editor to configuration path is total: vscode,
    jetbrains and cursor have their own path and every other editor gets
    [.mcp/config.json]. *)
Theorem getConfigPath_total (ide : jsstring) :
  getConfigPath (js "vscode") = js ".vscode/mcp-config.json"
  /\ getConfigPath (js "jetbrains") = js ".idea/mcp-config.json"
  /\ getConfigPath (js "cursor") = js ".cursor/mcp-config.json"
  /\ (~ In ide [js "vscode"; js "jetbrains"; js "cursor"] ->
      getConfigPath ide = js ".mcp/config.json").
Proof.
  repeat split.
  intros H. cbn [In] in H. unfold getConfigPath.
  rewrite !str_eqb_neq; [reflexivity| | |]; intros ->; apply H; auto.
Qed.

(* ------------------------------------------------------------------ *)
(** ** The runtime-version check *)

(** C8: [checkNode] succeeds exactly when the major version read from
    [process.version] is at least 18, its message contains that version
    string on both branches, v18.0.0 passes and v17.9.9 fails. *)
Theorem checkNode_version_gate (env : Env) (h : history) :
  (exists result,
      checkNode env h = (Ret result, h)
      /\ (success result = VBool true \/ success result = VBool false)
      /\ (success result = VBool true <->
          exists major, major_version (process_version env) = Some major /\ (18 <= major)%Z)
      /\ includes (message result) (process_version env) = true)
  /\ checkNode (with_version (js "v18.0.0") env) h
     = (Ret {| success := VBool true; message := js "vv18.0.0" |}, h)
  /\ checkNode (with_version (js "v17.9.9") env) h
     = (Ret {| success := VBool false; message := js "vv17.9.9 (18+ required)" |}, h).
Proof.
  split; [|split; reflexivity].
  eexists. split; [reflexivity|]. cbn [success message].
  set (version := process_version env).
  destruct (major_version version) as [major|] eqn:E; cbn [ge18].
  - destruct (Z.leb_spec 18 major) as [Hge|Hlt].
    + split; [auto|]. split.
      * split; [intros _; exists major; auto | reflexivity].
      * exact (includes_end (js "v") version).
    + split; [auto|]. split.
      * split; [discriminate|]. intros [m [Hm Hle]]. injection Hm as <-. lia.
      * exact (includes_app (js "v") version (js " (18+ required)")).
  - split; [auto|]. split.
    + split; [discriminate|]. intros [m [Hm _]]. discriminate Hm.
    + exact (includes_app (js "v") version (js " (18+ required)")).
Qed.

(* ------------------------------------------------------------------ *)
(** ** The credential-presence check *)

Lemma js_or_truthy (a b : value) :
  truthy (js_or a b) = true <-> truthy a = true \/ truthy b = true.
Proof.
  unfold js_or. destruct (truthy a) eqn:E.
  - rewrite E. tauto.
  - split; [auto|]. intros [H|H]; [discriminate|exact H].
Qed.

Lemma secret_truthy (v : value) :
  secret_or_null v = true -> (truthy v = true <-> v <> VNull).
Proof.
  destruct v as [| |b|n|[|c s]|items|fields|p]; cbn; try discriminate; intros _.
  - split; [discriminate|]. intros H. now elim H.
  - split; [discriminate|reflexivity].
Qed.

(** Once the store is there and parses to something other than [null],
    the check returns the value of [creds.claude || creds.github]. *)
Lemma checkAPIKeys_parsed (env : Env) (h : history) (v : value) :
  fs_oracle env h (Access (credentials_path env)) = None ->
  read_oracle env (FsAccess (credentials_path env) :: h) (credentials_path env) = Parsed v ->
  v <> VNull -> v <> VUndefined ->
  checkAPIKeys env h
  = (Ret {| success := js_or (field_of v (js "claude")) (field_of v (js "github"));
            message := if truthy (js_or (field_of v (js "claude")) (field_of v (js "github")))
                       then js "Configured" else js "Not configured" |},
     FsReadFile (credentials_path env) :: FsAccess (credentials_path env) :: h).
Proof.
  intros Hacc Hread Hnull Hundef.
  unfold checkAPIKeys, try_catch, with_env, bind, fs_access, fs_call, read_json.
  fold (credentials_path env). rewrite Hacc, Hread.
  unfold js_or.
  destruct v as [| |b|n|s|items|fields|p]; try contradiction; cbn [get_member field_of ret];
    try reflexivity.
  destruct (truthy (object_get fields (js "claude"))) eqn:E; cbn [ret]; rewrite ?E; reflexivity.
Qed.

(** C4, as the claim states it, fails on a store whose fields are all
    [null]: the check returns [success: null] there, not [success: false]
    as it does for a missing store. *)
Lemma checkAPIKeys_all_null_is_null :
  fst (checkAPIKeys (with_store all_null_store (calm "v20.11.0" true)) [])
  = Ret {| success := VNull; message := js "Not configured" |}
  /\ fst (checkAPIKeys (without_store (calm "v20.11.0" true)) [])
     = Ret {| success := VBool false; message := js "Not configured" |}
  /\ VNull <> VBool false.
Proof. split; [reflexivity|]. split; [reflexivity|discriminate]. Qed.

(** C4, amended: when the credential store is missing, when it does not
    parse, and when it parses to an object whose credential fields are all
    [null], [checkAPIKeys] returns (it does not throw) a result whose
    message is "Not configured" and whose [success] is [false] in the
    first two cases and [null], which is falsy, in the third; the Health
    Aggregator prints the same row for all three. *)
Theorem checkAPIKeys_not_configured (env : Env) (h : history) :
  store_missing env h \/ store_unreadable env h \/ store_all_null env h ->
  exists result h',
    checkAPIKeys env h = (Ret result, h')
    /\ (store_missing env h -> success result = VBool false)
    /\ (store_unreadable env h -> success result = VBool false)
    /\ (store_all_null env h -> success result = VNull)
    /\ truthy (success result) = false
    /\ message result = js "Not configured"
    /\ forall colors maxLength name,
         report_row colors maxLength name result
         = report_row colors maxLength name not_configured.
Proof.
  unfold store_missing, store_unreadable, store_all_null.
  intros [[msg Hacc] | [[Hacc [msg [Hread|Hread]]] | [Hacc [fields [Hread [Hc Hg]]]]]].
  - exists not_configured, (FsAccess (credentials_path env) :: h).
    split; [|repeat split; auto].
    + unfold checkAPIKeys, try_catch, with_env, bind, fs_access, fs_call.
      fold (credentials_path env). rewrite Hacc. reflexivity.
    + intros [Hnone _]. rewrite Hnone in Hacc. discriminate Hacc.
  - exists not_configured,
      (FsReadFile (credentials_path env) :: FsAccess (credentials_path env) :: h).
    split; [|repeat split; auto].
    + unfold checkAPIKeys, try_catch, with_env, bind, fs_access, fs_call, read_json.
      fold (credentials_path env). rewrite Hacc, Hread. reflexivity.
    + intros [_ [fields [Hparsed _]]]. rewrite Hparsed in Hread. discriminate Hread.
  - exists not_configured,
      (FsReadFile (credentials_path env) :: FsAccess (credentials_path env) :: h).
    split; [|repeat split; auto].
    + unfold checkAPIKeys, try_catch, with_env, bind, fs_access, fs_call, read_json.
      fold (credentials_path env). rewrite Hacc, Hread. reflexivity.
    + intros [_ [fields [Hparsed _]]]. rewrite Hparsed in Hread. discriminate Hread.
  - eexists. eexists. split.
    + apply (@checkAPIKeys_parsed env h (VObj fields) Hacc Hread); discriminate.
    + cbn [field_of success message]. rewrite Hc, Hg. cbn.
      split; [intros [m Hm]; rewrite Hm in Hacc; discriminate Hacc|].
      split; [intros [_ [m [Hm|Hm]]]; rewrite Hm in Hread; discriminate Hread|].
      repeat split; auto.
Qed.

Lemma checkAPIKeys_not_configured_witness :
  store_all_null (with_store all_null_store (calm "v20.11.0" true)) []
  /\ exists result h',
       checkAPIKeys (with_store all_null_store (calm "v20.11.0" true)) [] = (Ret result, h')
       /\ success result = VNull
       /\ truthy (success result) = false
       /\ message result = js "Not configured".
Proof.
  assert (Hstore : store_all_null (with_store all_null_store (calm "v20.11.0" true)) []).
  { split; [reflexivity|].
    exists [(js "claude", VNull); (js "github", VNull)].
    repeat split; reflexivity. }
  split; [exact Hstore|].
  destruct (@checkAPIKeys_not_configured (with_store all_null_store (calm "v20.11.0" true)) []
              (or_intror (or_intror Hstore)))
    as [result [h' [Hrun [_ [_ [Hnull [Hfalsy [Hmessage _]]]]]]]].
  exists result, h'. repeat split; auto.
Defined.

(** C10, as the claim states it, fails on a store whose [claude] field is
    the empty string: the field is not [null], yet the check returns
    [success: null], which is falsy. *)
Lemma checkAPIKeys_empty_key_is_falsy :
  fst (checkAPIKeys (with_store empty_key_store (calm "v20.11.0" true)) [])
  = Ret {| success := VNull; message := js "Not configured" |}
  /\ truthy VNull = false
  /\ field_of (VObj [(js "claude", VStr []); (js "github", VNull)]) (js "claude") = VStr []
  /\ VStr [] <> VNull.
Proof. repeat split; try reflexivity. discriminate. Qed.

(** C10, amended: when the credential store exists and parses to a value
    other than [null], the [success] field is the value of
    [creds.claude || creds.github] itself, not a boolean: the credential
    string when one is configured, [null] when both fields are [null].  It
    is truthy exactly when one of the two fields is truthy; when every
    field is a non-empty secret or [null], that is exactly when one of
    them is not [null]. *)
Theorem checkAPIKeys_raw_value (env : Env) (h : history) (v : value) :
  fs_oracle env h (Access (credentials_path env)) = None ->
  read_oracle env (FsAccess (credentials_path env) :: h) (credentials_path env) = Parsed v ->
  v <> VNull -> v <> VUndefined ->
  exists raw,
    raw = js_or (field_of v (js "claude")) (field_of v (js "github"))
    /\ checkAPIKeys env h
       = (Ret {| success := raw;
                 message := if truthy raw then js "Configured" else js "Not configured" |},
          FsReadFile (credentials_path env) :: FsAccess (credentials_path env) :: h)
    /\ (truthy raw = true <->
        truthy (field_of v (js "claude")) = true \/ truthy (field_of v (js "github")) = true)
    /\ (secret_or_null (field_of v (js "claude")) = true ->
        secret_or_null (field_of v (js "github")) = true ->
        (truthy raw = true <->
         field_of v (js "claude") <> VNull \/ field_of v (js "github") <> VNull))
    /\ (field_of v (js "claude") = VNull -> field_of v (js "github") = VNull -> raw = VNull)
    /\ (forall c s, field_of v (js "claude") = VStr (c :: s) -> raw = VStr (c :: s)).
Proof.
  intros Hacc Hread Hnull Hundef. eexists. split; [reflexivity|].
  split; [apply (checkAPIKeys_parsed _ _ Hacc Hread Hnull Hundef)|].
  split; [apply js_or_truthy|]. split; [|split].
  - intros Hc Hg. rewrite js_or_truthy.
    rewrite (secret_truthy _ Hc), (secret_truthy _ Hg). tauto.
  - intros -> ->. reflexivity.
  - intros c s ->. reflexivity.
Qed.

Lemma checkAPIKeys_raw_value_witness :
  fs_oracle (calm "v20.11.0" true) []
    (Access (credentials_path (calm "v20.11.0" true))) = None
  /\ fst (checkAPIKeys (calm "v20.11.0" true) [])
     = Ret {| success := VStr (js "sk-ant-0123"); message := js "Configured" |}.
Proof.
  split; [reflexivity|].
  destruct (@checkAPIKeys_raw_value (calm "v20.11.0" true) []
              (VObj [(js "claude", VStr (js "sk-ant-0123")); (js "github", VNull)]))
    as [raw [Hraw [Hrun _]]];
    [reflexivity | reflexivity | discriminate | discriminate |].
  rewrite Hrun, Hraw. reflexivity.
Defined.

(* ------------------------------------------------------------------ *)
(** ** The Health Aggregator *)

Lemma console_lines_probe (events : list event) (h : history) :
  forallb probe_event events = true -> console_lines (events ++ h) = console_lines h.
Proof.
  induction events as [|e events IH]; [reflexivity|].
  cbn [forallb app]. intros H. apply andb_prop in H as [He Hr].
  destruct e; try discriminate He; cbn [console_lines]; auto.
Qed.

(** Splits the oracles a check consults into cases. *)
Ltac split_oracles :=
  repeat (cbv beta iota;
    match goal with
    | |- context [exec_oracle ?e ?h ?c] => destruct (exec_oracle e h c)
    | |- context [fs_oracle ?e ?h ?c] => destruct (fs_oracle e h c)
    | |- context [read_oracle ?e ?h ?c] => destruct (read_oracle e h c) as [?|?|[]]
    | |- context [if truthy ?v then _ else _] => destruct (truthy v)
    end).

(** Closes [exists result events, (Ret _, _ :: h) = (Ret result, events ++ h) /\ _]. *)
Ltac probed :=
  cbv beta iota; eexists;
  first [ exists (@nil event); split; reflexivity
        | eexists [_]; split; reflexivity
        | eexists [_; _]; split; reflexivity ].

Lemma checks_return_quietly : Forall returns_quietly checks.
Proof.
  unfold checks. repeat apply Forall_cons; [..|apply Forall_nil];
    intros env h; cbn [check].
  - probed.
  - unfold checkVSCode, try_catch, bind, execSync, ret. split_oracles; probed.
  - unfold checkClaudeExtension, try_catch, bind, execSync, ret. split_oracles; probed.
  - unfold checkMCPIntelligence, try_catch, bind, execSync, ret. split_oracles; probed.
  - unfold checkAPIKeys, try_catch, with_env, bind, fs_access, fs_call, read_json,
      get_member, ret.
    split_oracles; probed.
  - probed.
Qed.

Lemma check_loop_runs_all (env : Env) (maxLength : nat) (cs : list check_descriptor) :
  Forall returns_quietly cs ->
  forall (h : history) (results : list check_result),
  exists rs h',
    checks_ran env maxLength cs h rs h'
    /\ length rs = length cs
    /\ check_loop maxLength cs results env h = (Ret (results ++ rs), h')
    /\ console_lines h'
       = console_lines h
         ++ map (fun cr => report_row (chalk_colors env) maxLength
                             (check_name (fst cr)) (snd cr))
                (combine cs rs).
Proof.
  induction 1 as [|c cs Hc _ IH]; intros h results.
  - exists [], h. repeat split.
    + constructor.
    + cbn. now rewrite app_nil_r.
    + cbn. now rewrite app_nil_r.
  - destruct (Hc env h) as [result [events [Hrun Hprobe]]].
    set (row := report_row (chalk_colors env) maxLength (check_name c) result).
    destruct (IH (ConsoleLog row :: events ++ h) (results ++ [result]))
      as [rs [h' [Hran [Hlen [Hloop Hlines]]]]].
    exists (result :: rs), h'. repeat split.
    + econstructor; eassumption.
    + cbn. now rewrite Hlen.
    + cbn [check_loop]. unfold bind at 1. rewrite Hrun.
      unfold bind at 1, with_env, console_log, emit. fold row.
      rewrite Hloop, <- app_assoc. reflexivity.
    + rewrite Hlines. cbn [console_lines combine map fst snd].
      rewrite (console_lines_probe _ _ Hprobe), <- app_assoc. reflexivity.
Qed.

Lemma healthCheck_over_aggregates (env : Env) (cs : list check_descriptor) (h : history) :
  Forall returns_quietly cs -> aggregates env cs h.
Proof.
  intros Hcs. unfold aggregates. cbv zeta.
  set (intro := chalk (chalk_colors env) [cyan] _).
  destruct (check_loop_runs_all env (max_name_length cs) Hcs
              (ConsoleLog report_rule :: ConsoleLog report_title :: ConsoleLog report_top
                 :: ConsoleLog intro :: h) [])
    as [rs [h' [Hran [Hlen [Hloop Hlines]]]]].
  exists rs, h'. split; [exact Hran|]. split; [exact Hlen|].
  assert (Hrun : healthCheck_over cs env h
                 = (Ret (forallb (fun r => truthy (success r)) rs),
                    ConsoleLog (summary_banner (chalk_colors env)
                                  (forallb (fun r => truthy (success r)) rs))
                      :: ConsoleLog report_bottom :: h')).
  { unfold healthCheck_over, with_env, bind, console_log, emit. fold intro.
    rewrite Hloop. reflexivity. }
  split; [exact Hrun|].
  rewrite Hrun. cbn [snd console_lines]. rewrite Hlines.
  cbn [console_lines]. unfold report_rows.
  rewrite <- !app_assoc. reflexivity.
Qed.

(** Runtime passes, editor and extension fail, the rest pass: overall
    health is false and all six rows are printed, between the three lines
    of the frame above and the two lines below. *)
Example healthCheck_two_failures :
  fst (healthCheck no_editor []) = Ret false
  /\ firstn 6 (skipn 4 (console_lines (snd (healthCheck no_editor []))))
     = map (fun row => report_row false 16 (js (fst (fst row)))
                         {| success := VBool (snd (fst row)); message := js (snd row) |})
         [ ("Node.js Version", true, "vv20.11.0");
           ("VS Code", false, "Not found");
           ("Claude Extension", false, "Unable to check");
           ("MCP Intelligence", true, "Installed");
           ("API Keys", true, "Configured");
           ("Network", true, "Connected") ]%string
  /\ length (console_lines (snd (healthCheck no_editor []))) = 12%nat.
Proof. repeat split; vm_compute; reflexivity. Qed.

(* ------------------------------------------------------------------ *)
(** ** The width of the report rows *)

Lemma plain_cons (c : N) (s : jsstring) :
  plain (c :: s) = true -> c <> 27 /\ c <> 10 /\ plain s = true.
Proof.
  unfold plain. cbn [forallb]. intros H.
  apply andb_prop in H as [Hc Hs]. apply andb_prop in Hc as [H27 H10].
  apply negb_true_iff in H27, H10. apply N.eqb_neq in H27, H10. auto.
Qed.

Lemma plain_unstyled (s : jsstring) :
  plain s = true -> existsb (N.eqb 27) s = false /\ existsb (N.eqb 10) s = false.
Proof.
  induction s as [|c s IH]; [auto|]. intros H.
  apply plain_cons in H as [H27 [H10 Hs]]. destruct (IH Hs) as [E1 E2].
  cbn [existsb]. rewrite E1, E2.
  split; apply orb_false_iff; split; auto; apply N.eqb_neq; auto.
Qed.

Lemma visible_plain (s rest : jsstring) :
  plain s = true ->
  visible_from Shown (s ++ rest) = (length s + visible_from Shown rest)%nat.
Proof.
  induction s as [|c s IH]; [reflexivity|]. intros H.
  apply plain_cons in H as [H27 [_ Hs]].
  cbn [app visible_from length]. rewrite (proj2 (N.eqb_neq c 27) H27).
  now rewrite (IH Hs).
Qed.

Lemma plain_spaces (n : nat) : plain (repeat 32 n) = true.
Proof. induction n; [reflexivity|]. cbn [repeat]. unfold plain. cbn [forallb]. exact IHn. Qed.

Lemma chalk_plain (colors : bool) (chain : list style) (c : N) (s : jsstring) :
  plain (c :: s) = true ->
  chalk colors chain (c :: s)
  = if colors then flat_map open_code chain ++ (c :: s) ++ flat_map close_code (rev chain)
    else c :: s.
Proof.
  intros Hp. destruct (plain_unstyled _ Hp) as [E27 E10].
  unfold chalk. now rewrite E27, E10.
Qed.

(** The status cell of a plain message: the mark, a space and the
    message, with ten code units of colour codes around them when chalk
    colours. *)
Lemma status_text_width (colors : bool) (r : check_result) (rest : jsstring) :
  plain (message r) = true ->
  length (status_text colors r)
  = (2 + length (message r) + if colors then 10 else 0)%nat
  /\ visible_from Shown (status_text colors r ++ rest)
     = (2 + length (message r) + visible_from Shown rest)%nat.
Proof.
  intros Hp. unfold status_text.
  destruct (truthy (success r));
    [ change (js "✅ " ++ message r) with (9989 :: 32 :: message r)
    | change (js "❌ " ++ message r) with (10060 :: 32 :: message r) ];
    (rewrite chalk_plain by exact Hp);
    destruct colors;
    try change (flat_map open_code [green]) with [27; 91; 51; 50; 109];
    try change (flat_map open_code [red]) with [27; 91; 51; 49; 109];
    try change (flat_map close_code (rev [green])) with [27; 91; 51; 57; 109];
    try change (flat_map close_code (rev [red])) with [27; 91; 51; 57; 109];
    (split;
     [ cbn [app length]; rewrite ?length_app; cbn [length]; lia
     | cbn [app visible_from N.eqb]; cbn;
       rewrite <- ?app_assoc, (visible_plain _ _ Hp); cbn; reflexivity ]).
Qed.

Lemma check_names_fit (c : check_descriptor) :
  In c checks ->
  plain (check_name c) = true /\ (length (check_name c) <= max_name_length checks)%nat.
Proof.
  unfold checks. cbn [In].
  intros [<-|[<-|[<-|[<-|[<-|[<-|[]]]]]]]; split; (reflexivity || (vm_compute; lia)).
Qed.

(** A row whose status cell fits in 30 code units is 53 code units long,
    of which the colour codes, when chalk colours, are 10. *)
Lemma report_row_width (colors : bool) (c : check_descriptor) (r : check_result) :
  In c checks ->
  plain (message r) = true ->
  (length (status_text colors r) <= 30)%nat ->
  length (report_row colors (max_name_length checks) (check_name c) r) = 53%nat
  /\ visible_length (report_row colors (max_name_length checks) (check_name c) r)
     = if colors then 43%nat else 53%nat.
Proof.
  intros Hin Hp Hfit. destruct (check_names_fit Hin) as [Hname Hlen].
  change (max_name_length checks) with 16%nat in *.
  unfold report_row, visible_length, padEnd, spaces.
  change (js "║ ") with [9553; 32]. change (js ":") with [58].
  change (js "  ") with [32; 32]. change (js " ║") with [32; 9553].
  split.
  - rewrite !length_app, !repeat_length. cbn [length]. lia.
  - cbn [app visible_from N.eqb]. cbn -[repeat status_text Nat.sub].
    rewrite (visible_plain _ _ Hname). cbn [visible_from N.eqb]. cbn -[repeat status_text Nat.sub].
    rewrite (visible_plain _ _ (plain_spaces _)), repeat_length.
    cbn [visible_from N.eqb]. cbn -[repeat status_text Nat.sub].
    rewrite <- app_assoc.
    destruct (status_text_width colors r
                (repeat 32 (30 - length (status_text colors r)) ++ [32; 9553]) Hp)
      as [Hstatus ->].
    rewrite (visible_plain _ _ (plain_spaces _)), repeat_length.
    cbn -[Nat.sub]. rewrite Hstatus in *. destruct colors; lia.
Qed.

(** The status cell: the mark and the message, between the codes of
    green or red when chalk colours. *)
Lemma status_text_shape (colors : bool) (r : check_result) :
  colors = false \/ plain (message r) = true ->
  status_text colors r
  = (if colors then sgr (if truthy (success r) then "32" else "31") else [])
    ++ ((if truthy (success r) then js "✅ " else js "❌ ") ++ message r)
    ++ (if colors then sgr "39" else []).
Proof.
  intros H. unfold status_text.
  destruct colors.
  - destruct H as [H|Hp]; [discriminate H|].
    destruct (truthy (success r));
      [ change (js "✅ " ++ message r) with (9989 :: 32 :: message r)
      | change (js "❌ " ++ message r) with (10060 :: 32 :: message r) ];
      (rewrite chalk_plain by exact Hp); reflexivity.
  - destruct (truthy (success r));
      [ change (js "✅ " ++ message r) with (9989 :: 32 :: message r)
      | change (js "❌ " ++ message r) with (10060 :: 32 :: message r) ];
      cbn [chalk app]; now rewrite app_nil_r.
Qed.

(** C1: whatever the six checks find, [healthCheck] calls every one of
    them once, in the declared order (Node.js Version, VS Code, Claude
    Extension, MCP Intelligence, API Keys, Network) and whether or not an
    earlier one failed, prints one row for each in that order, and returns
    the conjunction of their [success] flags; the same holds over any list
    of checks that return a result.  The row of a check is its name, a
    colon, and the status cell: the mark of success or of failure and the
    message of the result, so that every failed check shows in the
    report. *)
Theorem healthCheck_runs_all_and_conjoins (env : Env) (h : history) :
  map check_name checks
  = [js "Node.js Version"; js "VS Code"; js "Claude Extension";
     js "MCP Intelligence"; js "API Keys"; js "Network"]
  /\ healthCheck = healthCheck_over checks
  /\ aggregates env checks h
  /\ (forall cs, Forall returns_quietly cs -> aggregates env cs h)
  /\ (forall colors maxLength name r,
        report_row colors maxLength name r
        = js "║ " ++ name ++ js ":" ++ spaces (maxLength - length name) ++ js "  "
          ++ padEnd (status_text colors r) 30 ++ js " ║"
        /\ includes (report_row colors maxLength name r) (name ++ js ":") = true
        /\ (colors = false \/ plain (message r) = true ->
            status_text colors r
            = (if colors then sgr (if truthy (success r) then "32" else "31") else [])
              ++ ((if truthy (success r) then js "✅ " else js "❌ ") ++ message r)
              ++ (if colors then sgr "39" else [])
            /\ includes (report_row colors maxLength name r)
                 ((if truthy (success r) then js "✅ " else js "❌ ") ++ message r) = true))
  /\ report_row false (max_name_length checks) (js "VS Code")
       {| success := VBool false; message := js "Not found" |}
     = js "║ VS Code:           ❌ Not found                    ║"
  /\ report_row false (max_name_length checks) (js "Network")
       {| success := VBool true; message := js "Connected" |}
     = js "║ Network:           ✅ Connected                    ║".
Proof.
  split; [reflexivity|]. split; [reflexivity|].
  split; [apply healthCheck_over_aggregates, checks_return_quietly|].
  split; [intros cs; apply healthCheck_over_aggregates|].
  split; [|split; vm_compute; reflexivity].
  intros colors maxLength name r.
  split; [reflexivity|]. split.
  - unfold report_row. rewrite (app_assoc name (js ":")). apply includes_app.
  - intros Hplain. pose proof (@status_text_shape colors r Hplain) as Hshape.
    split; [exact Hshape|].
    unfold report_row, padEnd. rewrite Hshape.
    set (mark := (if truthy (success r) then js "✅ " else js "❌ ") ++ message r).
    repeat rewrite <- app_assoc.
    repeat rewrite (app_assoc _ _ (mark ++ _)).
    apply includes_app.
Qed.

(** What a row shows, whatever the length of its message: the status
    cell is padded to 30 code units, colour codes included, and never
    cut. *)
Lemma report_row_visible (colors : bool) (c : check_descriptor) (r : check_result) :
  In c checks ->
  plain (message r) = true ->
  visible_length (report_row colors (max_name_length checks) (check_name c) r)
  = (23 + Nat.max (if colors then 20 else 30) (2 + length (message r)))%nat.
Proof.
  intros Hin Hp. destruct (check_names_fit Hin) as [Hname Hlen].
  change (max_name_length checks) with 16%nat in *.
  unfold report_row, visible_length, padEnd, spaces.
  change (js "║ ") with [9553; 32]. change (js ":") with [58].
  change (js "  ") with [32; 32]. change (js " ║") with [32; 9553].
  cbn [app visible_from N.eqb]. cbn -[repeat status_text Nat.sub Nat.max].
  rewrite (visible_plain _ _ Hname). cbn [visible_from N.eqb].
  cbn -[repeat status_text Nat.sub Nat.max].
  rewrite (visible_plain _ _ (plain_spaces _)), repeat_length.
  cbn [visible_from N.eqb]. cbn -[repeat status_text Nat.sub Nat.max].
  rewrite <- app_assoc.
  destruct (status_text_width colors r
              (repeat 32 (30 - length (status_text colors r)) ++ [32; 9553]) Hp)
    as [Hstatus ->].
  rewrite (visible_plain _ _ (plain_spaces _)), repeat_length.
  cbn -[Nat.sub Nat.max]. rewrite Hstatus in *. destruct colors; lia.
Qed.

(** C9 does not hold of the code, on any run: the frame of the report is
    58 code units wide and its title line 57, while a row shows 23 units
    and its status cell, which [padEnd] fills up to 30 code units with
    the colour codes counted in -- 20 visible ones when chalk colours --
    and never cuts.  So a row shows 53 units (43 in colour) when its cell
    fits and more when it does not, and no two of frame, title and rows
    agree.  On Node.js 17.9.9, in colour, the ten lines of the report
    show 58, 57, 58, 48, 43, 43, 43, 43, 43 and 58 units. *)
Theorem report_is_ragged (env : Env) (h : history) :
  (exists rs overall,
     length rs = length checks
     /\ console_lines (snd (healthCheck env h))
        = console_lines h
          ++ [ chalk (chalk_colors env) [cyan] (js "
🔍 Running MCP IDE Health Check...
");
               report_top; report_title; report_rule ]
          ++ report_rows (chalk_colors env) checks rs
          ++ [report_bottom; summary_banner (chalk_colors env) overall])
  /\ map visible_length [report_top; report_title; report_rule; report_bottom]
     = [58; 57; 58; 58]%nat
  /\ (forall colors c r,
        In c checks -> plain (message r) = true ->
        visible_length (report_row colors (max_name_length checks) (check_name c) r)
        = (23 + Nat.max (if colors then 20 else 30) (2 + length (message r)))%nat)
  /\ map visible_length
       (firstn 10 (skipn 1 (console_lines (snd (healthCheck (calm "v17.9.9" true) [])))))
     = [58; 57; 58; 48; 43; 43; 43; 43; 43; 58]%nat
  /\ map visible_length
       (firstn 10 (skipn 1 (console_lines (snd (healthCheck (calm "v20.11.0" false) [])))))
     = [58; 57; 58; 53; 53; 53; 53; 53; 53; 58]%nat.
Proof.
  split; [|split; [vm_compute; reflexivity|split; [|split; vm_compute; reflexivity]]].
  - destruct (healthCheck_over_aggregates env h checks_return_quietly)
      as [rs [h' [_ [Hlen [_ Hlines]]]]].
    exists rs. eexists. split; [exact Hlen|]. exact Hlines.
  - intros colors c r. apply report_row_visible.
Qed.

(** A status cell longer than 30 code units is not cut, so its row is
    wider.  With colours on, Node.js 17.9.9 gives a first row of 48
    visible units above rows of 43; with colours off, a nightly build's
    long version string does the same. *)
Lemma report_rows_misaligned :
  map visible_length
    (firstn 6 (skipn 4 (console_lines (snd (healthCheck (calm "v17.9.9" true) [])))))
  = [48; 43; 43; 43; 43; 43]%nat
  /\ map visible_length
       (firstn 6 (skipn 4 (console_lines
          (snd (healthCheck (calm "v17.0.0-nightly20210710e7b3f9c0b3" false) [])))))
     = [74; 53; 53; 53; 53; 53]%nat
  /\ firstn 1 (skipn 4 (console_lines (snd (healthCheck (calm "v17.9.9" true) []))))
     = [report_row true (max_name_length checks) (js "Node.js Version")
          {| success := VBool false; message := js "vv17.9.9 (18+ required)" |}].
Proof. repeat split; vm_compute; reflexivity. Qed.

(** Two rows of checks have the same visible width (and the same length)
    when each status cell -- the mark, the message and chalk's colour
    codes -- is at most 30 code units long and the message holds no
    escape character and no line feed. *)
Lemma report_rows_aligned (colors : bool) (c1 c2 : check_descriptor)
    (r1 r2 : check_result) :
  In c1 checks -> In c2 checks ->
  plain (message r1) = true -> plain (message r2) = true ->
  (length (status_text colors r1) <= 30)%nat ->
  (length (status_text colors r2) <= 30)%nat ->
  visible_length (report_row colors (max_name_length checks) (check_name c1) r1)
  = visible_length (report_row colors (max_name_length checks) (check_name c2) r2)
  /\ length (report_row colors (max_name_length checks) (check_name c1) r1)
     = length (report_row colors (max_name_length checks) (check_name c2) r2).
Proof.
  intros Hin1 Hin2 Hp1 Hp2 Hfit1 Hfit2.
  destruct (@report_row_width colors c1 r1 Hin1 Hp1 Hfit1) as [L1 V1].
  destruct (@report_row_width colors c2 r2 Hin2 Hp2 Hfit2) as [L2 V2].
  split; congruence.
Qed.

Lemma report_rows_aligned_witness :
  In {| check_name := js "VS Code"; check := checkVSCode |} checks
  /\ In {| check_name := js "MCP Intelligence"; check := checkMCPIntelligence |} checks
  /\ (length (status_text true {| success := VBool false; message := js "Not found" |})
      <= 30)%nat
  /\ (length (status_text true {| success := VBool true; message := js "Installed (local)" |})
      <= 30)%nat
  /\ visible_length
       (report_row true (max_name_length checks) (js "VS Code")
          {| success := VBool false; message := js "Not found" |})
     = visible_length
         (report_row true (max_name_length checks) (js "MCP Intelligence")
            {| success := VBool true; message := js "Installed (local)" |}).
Proof.
  assert (H1 : In {| check_name := js "VS Code"; check := checkVSCode |} checks)
    by (right; left; reflexivity).
  assert (H2 : In {| check_name := js "MCP Intelligence"; check := checkMCPIntelligence |}
                 checks)
    by (do 3 right; left; reflexivity).
  assert (F1 : (length (status_text true {| success := VBool false;
                                            message := js "Not found" |}) <= 30)%nat)
    by (vm_compute; lia).
  assert (F2 : (length (status_text true {| success := VBool true;
                                            message := js "Installed (local)" |}) <= 30)%nat)
    by (vm_compute; lia).
  split; [exact H1|]. split; [exact H2|]. split; [exact F1|]. split; [exact F2|].
  exact (proj1 (@report_rows_aligned true _ _
                  {| success := VBool false; message := js "Not found" |}
                  {| success := VBool true; message := js "Installed (local)" |}
                  H1 H2 eq_refl eq_refl F1 F2)).
Defined.

(* ------------------------------------------------------------------ *)
(** ** The Installer Pipeline *)

(** Splits what a step consults into cases. *)
Ltac split_branches :=
  repeat (cbv beta iota;
    match goal with
    | |- context [exec_oracle ?e ?h ?c] => destruct (exec_oracle e h c)
    | |- context [fs_oracle ?e ?h ?c] => destruct (fs_oracle e h c)
    | |- context [if ?b then _ else _] => destruct b
    end).

(** Closes [contained] once the cases are split. *)
Ltac bounded :=
  cbv beta iota;
  split;
  [ first [ exists (@nil event); split; reflexivity
          | eexists [_]; split; reflexivity
          | eexists [_; _]; split; reflexivity
          | eexists [_; _; _]; split; reflexivity
          | eexists [_; _; _; _]; split; reflexivity
          | eexists [_; _; _; _; _]; split; reflexivity ]
  | intros ?; discriminate ].

Lemma installMCPIntelligence_contained (config : Config) :
  contained (installMCPIntelligence config).
Proof.
  intros env h. unfold installMCPIntelligence, bind, execSync, ret.
  split_branches; bounded.
Qed.

Lemma installIDEExtensions_contained (config : Config) :
  contained (installIDEExtensions config).
Proof.
  intros env h. unfold installIDEExtensions.
  destruct (str_eqb (ide config) (js "vscode")).
  - destruct (str_eqb (ai config) (js "claude") || str_eqb (ai config) (js "both"));
      destruct (str_eqb (ai config) (js "copilot") || str_eqb (ai config) (js "both"));
      cbn [app install_extensions];
      unfold try_catch, bind, execSync, ret; split_branches; bounded.
  - destruct (str_eqb (ide config) (js "jetbrains")).
    + unfold with_env, bind, console_log, emit. bounded.
    + destruct (str_eqb (ide config) (js "cursor")).
      * unfold with_env, bind, console_log, emit. bounded.
      * bounded.
Qed.

Lemma configureSettings_contained (config : Config) :
  contained (configureSettings config).
Proof.
  intros env h. unfold configureSettings, with_env, bind, fs_mkdir, fs_writeFile, fs_call.
  split_branches; bounded.
Qed.

Lemma setupAPIKeys_contained (config : Config) :
  contained (setupAPIKeys config).
Proof.
  intros env h. unfold setupAPIKeys, with_env.
  destruct (negb (truthy_text (apiKey config))).
  - unfold console_log, emit. bounded.
  - unfold bind, fs_mkdir, fs_writeFile, fs_chmod, fs_call.
    split_branches; bounded.
Qed.

Lemma createSampleProject_contained (config : Config) :
  contained (createSampleProject config).
Proof.
  intros env h. unfold createSampleProject.
  destruct (js_or _ _); try bounded.
  unfold fs_writeFile, fs_call. split_branches; bounded.
Qed.

Lemma steps_contained (config : Config) :
  Forall (fun s => contained (fn s)) (steps config).
Proof.
  unfold steps. repeat apply Forall_cons; [..|apply Forall_nil]; cbn [fn].
  - apply installMCPIntelligence_contained.
  - apply installIDEExtensions_contained.
  - apply configureSettings_contained.
  - apply setupAPIKeys_contained.
  - apply createSampleProject_contained.
Qed.

Lemma step_names_distinct (config : Config) : NoDup (map step_name (steps config)).
Proof.
  unfold steps. cbn [map step_name].
  repeat (apply NoDup_cons; [cbn [In]; intuition discriminate|]).
  apply NoDup_nil.
Qed.

Lemma started_app (name : jsstring) (a b : list event) :
  started name (a ++ b) = (started name a + started name b)%nat.
Proof.
  induction a as [|e a IH]; [reflexivity|].
  destruct e; cbn [app started]; rewrite ?IH; auto. lia.
Qed.

Lemma started_actions (name : jsstring) (events : list event) :
  forallb action_event events = true -> started name events = 0%nat.
Proof.
  induction events as [|e events IH]; [reflexivity|].
  cbn [forallb]. intros H. apply andb_prop in H as [He Hr].
  destruct e; try discriminate He; cbn [started]; auto.
Qed.

Lemma install_loop_app (a b : list step) (env : Env) (h : history) :
  install_loop (a ++ b) env h
  = match install_loop a env h with
    | (Ret _, h') => install_loop b env h'
    | (Throw e, h') => (Throw e, h')
    | (Exit code, h') => (Exit code, h')
    end.
Proof.
  revert h. induction a as [|s a IH]; intros h; [reflexivity|].
  cbn [app install_loop]. unfold bind.
  destruct (run_step s env h) as [[[]|e|code] h1]; auto.
Qed.

(** One iteration: the spinner starts once on the step's name, the body
    adds its events, and the iteration ends by going on or by exit 1. *)
Lemma run_step_shape (s : step) (env : Env) (h : history) :
  contained (fn s) ->
  exists events,
    (run_step s env h = (Ret tt, events ++ h) \/ run_step s env h = (Exit 1%Z, events ++ h))
    /\ forall name,
         started name events = if str_eqb (step_name s) name then 1%nat else 0%nat.
Proof.
  intros Hc.
  destruct (Hc env (SpinnerStart (step_name s) :: h)) as [[body [Hsnd Hact]] Hstay].
  destruct (fn s env (SpinnerStart (step_name s) :: h)) as [[[]|e|code] h2] eqn:E;
    cbn [fst snd] in *; subst h2.
  - exists (SpinnerSucceed (step_name s) :: body ++ [SpinnerStart (step_name s)]).
    split.
    + left. unfold run_step, bind, spinner_start, emit, try_catch, spinner_succeed.
      rewrite E. cbn [app]. now rewrite <- app_assoc.
    + intros name. cbn [started]. rewrite started_app, (started_actions _ _ Hact).
      cbn [started]. lia.
  - exists (Confirm (js "Continue anyway?")
              :: ConsoleError (chalk (chalk_colors env) [red] (js "  Error: " ++ e))
              :: SpinnerFail (step_name s) :: body ++ [SpinnerStart (step_name s)]).
    split.
    + unfold run_step, bind, spinner_start, emit, try_catch, spinner_fail, with_env,
        console_error, emit, confirm.
      rewrite E. cbn [app]. rewrite <- app_assoc. cbn [app].
      destruct (confirm_oracle env _); cbn [negb]; [left|right]; reflexivity.
    + intros name. cbn [started]. rewrite started_app, (started_actions _ _ Hact).
      cbn [started]. lia.
  - now elim (Hstay code).
Qed.

(** A run of steps adds events, starts no step that is not in the list,
    and never throws. *)
Lemma install_loop_shape (l : list step) (env : Env) :
  Forall (fun s => contained (fn s)) l ->
  forall h, exists events,
    (install_loop l env h = (Ret tt, events ++ h)
     \/ install_loop l env h = (Exit 1%Z, events ++ h))
    /\ forall name, ~ In name (map step_name l) -> started name events = 0%nat.
Proof.
  induction 1 as [|s l Hs _ IH]; intros h.
  - exists []. split; [left; reflexivity | reflexivity].
  - destruct (run_step_shape s env h Hs) as [first [Hrun Hcount]].
    cbn [install_loop]. unfold bind.
    destruct Hrun as [Hrun|Hrun]; rewrite Hrun.
    + destruct (IH (first ++ h)) as [later [Hloop Hnone]].
      exists (later ++ first). rewrite <- app_assoc. split; [exact Hloop|].
      intros name Hname. cbn [map In] in Hname.
      rewrite started_app, Hcount, Hnone by tauto.
      rewrite str_eqb_neq by tauto. reflexivity.
    + exists first. split; [right; reflexivity|].
      intros name Hname. cbn [map In] in Hname.
      rewrite Hcount, str_eqb_neq by tauto. reflexivity.
Qed.

(** With an operator who always goes on, every step runs and the loop
    returns. *)
Lemma install_loop_completes (l : list step) (env : Env) :
  Forall (fun s => contained (fn s)) l ->
  forall h,
    (forall events, confirm_oracle env (events ++ h) = true) ->
    exists h', install_loop l env h = (Ret tt, h').
Proof.
  induction 1 as [|s l Hs _ IH]; intros h Hyes.
  - exists h. reflexivity.
  - destruct (Hs env (SpinnerStart (step_name s) :: h)) as [[body [Hsnd Hact]] Hstay].
    destruct (fn s env (SpinnerStart (step_name s) :: h)) as [[[]|e|code] h2] eqn:E;
      cbn [fst snd] in *; subst h2.
    + destruct (IH ((SpinnerSucceed (step_name s) :: body ++ [SpinnerStart (step_name s)])
                      ++ h)) as [h' Hloop].
      { intros events. rewrite app_assoc. apply Hyes. }
      exists h'. rewrite <- Hloop.
      cbn [install_loop]. unfold run_step, bind, spinner_start, emit, try_catch,
        spinner_succeed.
      rewrite E. cbn [app]. now rewrite <- app_assoc.
    + set (asked := Confirm (js "Continue anyway?")
                      :: ConsoleError (chalk (chalk_colors env) [red] (js "  Error: " ++ e))
                      :: SpinnerFail (step_name s) :: body ++ [SpinnerStart (step_name s)]).
      destruct (IH (asked ++ h)) as [h' Hloop].
      { intros events. rewrite app_assoc. apply Hyes. }
      exists h'. rewrite <- Hloop.
      cbn [install_loop]. unfold run_step, bind, spinner_start, emit, try_catch,
        spinner_fail, with_env, console_error, emit, confirm.
      rewrite E.
      pose proof (Hyes (tl asked)) as Hanswer.
      subst asked. cbn [tl app] in *. rewrite <- app_assoc in *. cbn [app] in *.
      rewrite Hanswer. reflexivity.
    + now elim (Hstay code).
Qed.

Lemma later_name_fresh (pre post : list step) (s later : step) :
  NoDup (map step_name (pre ++ s :: post)) ->
  In later post ->
  step_name later <> step_name s /\ ~ In (step_name later) (map step_name pre).
Proof.
  rewrite map_app. cbn [map]. intros Hnd Hin.
  assert (Hlater : In (step_name later) (map step_name post)) by now apply in_map.
  induction pre as [|p pre IH]; cbn [map app] in *.
  - inversion Hnd as [|? ? Hnot _]; subst. split; [|tauto].
    intros E. rewrite E in Hlater. contradiction.
  - inversion Hnd as [|? ? Hnot Hrest]; subst.
    destruct (IH Hrest) as [Hs Hpre]. split; [exact Hs|].
    intros [E|Hp]; [|contradiction].
    apply Hnot. rewrite E. apply in_or_app. right. right. exact Hlater.
Qed.

(** What both answers share: the run reaches step [s], which fails, and
    the operator is asked. *)
Lemma install_reaches_prompt (config : Config) (env : Env) (h : history)
    (pre post : list step) (s : step) (h1 h2 : history) (error_message : jsstring) :
  steps config = pre ++ s :: post ->
  install_loop pre env (ConsoleLog (install_headline (chalk_colors env)) :: h) = (Ret tt, h1) ->
  fn s env (SpinnerStart (step_name s) :: h1) = (Throw error_message, h2) ->
  install config env h
  = (if confirm_oracle env (tl (failure_events env s error_message) ++ h2)
     then install_loop post env (failure_events env s error_message ++ h2)
     else (Exit 1%Z, failure_events env s error_message ++ h2))
  /\ exists events,
       failure_events env s error_message ++ h2 = events ++ h
       /\ forall later, In later post -> started (step_name later) events = 0%nat.
Proof.
  intros Hsteps Hpre Hfn. split.
  - unfold install, bind at 1, with_env, console_log, emit.
    rewrite Hsteps, install_loop_app, Hpre.
    cbn [install_loop]. unfold bind at 1.
    unfold run_step, bind, spinner_start, emit, try_catch, spinner_fail, with_env,
      console_error, emit, confirm.
    rewrite Hfn. unfold failure_events. cbn [tl app].
    destruct (confirm_oracle env _); reflexivity.
  - pose proof (steps_contained config) as Hall. rewrite Hsteps in Hall.
    apply Forall_app in Hall as [Hcpre Hcrest].
    inversion Hcrest as [|? ? Hcs _]; subst.
    destruct (install_loop_shape env Hcpre
                (ConsoleLog (install_headline (chalk_colors env)) :: h))
      as [before [Hloop Hnone]].
    rewrite Hpre in Hloop. destruct Hloop as [Hloop|Hloop]; [|discriminate Hloop].
    injection Hloop as ->.
    destruct (Hcs env (SpinnerStart (step_name s) :: before
                         ++ ConsoleLog (install_headline (chalk_colors env)) :: h))
      as [[body [Hsnd Hact]] _].
    rewrite Hfn in Hsnd. cbn [snd] in Hsnd. subst h2.
    exists (failure_events env s error_message ++ body ++ SpinnerStart (step_name s)
              :: before ++ [ConsoleLog (install_headline (chalk_colors env))]).
    split.
    + rewrite <- !app_assoc. cbn [app]. rewrite <- !app_assoc. reflexivity.
    + intros later Hlater.
      pose proof (step_names_distinct config) as Hnd. rewrite Hsteps in Hnd.
      destruct (later_name_fresh _ _ _ _ Hnd Hlater) as [Hs Hp].
      rewrite !started_app. unfold failure_events. cbn [started].
      rewrite started_app, (started_actions _ _ Hact), (Hnone _ Hp).
      cbn [started]. rewrite str_eqb_neq by auto. reflexivity.
Qed.


(** C2: when a step of the pipeline fails and the operator answers no,
    the run ends at once with exit code 1: none of the later steps is
    started, and after the failure nothing is done but marking the step
    failed, printing the error and asking -- in particular nothing that
    the earlier steps did is undone. *)
Theorem install_aborts_on_refusal (config : Config) (env : Env) (h : history)
    (pre post : list step) (s : step) (h1 h2 : history) (error_message : jsstring) :
  steps config = pre ++ s :: post ->
  install_loop pre env (ConsoleLog (install_headline (chalk_colors env)) :: h) = (Ret tt, h1) ->
  fn s env (SpinnerStart (step_name s) :: h1) = (Throw error_message, h2) ->
  confirm_oracle env
    (ConsoleError (chalk (chalk_colors env) [red] (js "  Error: " ++ error_message))
       :: SpinnerFail (step_name s) :: h2) = false ->
  install config env h = (Exit 1%Z, failure_events env s error_message ++ h2)
  /\ (1 <> 0)%Z
  /\ forallb (fun e => negb (action_event e)) (failure_events env s error_message) = true
  /\ exists events,
       failure_events env s error_message ++ h2 = events ++ h
       /\ forall later, In later post -> started (step_name later) events = 0%nat.
Proof.
  intros Hsteps Hpre Hfn Hno.
  destruct (@install_reaches_prompt config env h pre post s _ _ _ Hsteps Hpre Hfn)
    as [Hrun Hevents].
  unfold failure_events in Hrun at 1. cbn [tl app] in Hrun. rewrite Hno in Hrun.
  split; [exact Hrun|]. split; [discriminate|]. split; [reflexivity|exact Hevents].
Qed.

Lemma install_aborts_on_refusal_witness :
  steps quick_selection
  = firstn 2 (steps quick_selection)
    ++ {| step_name := js "Configure Settings"; fn := configureSettings quick_selection |}
    :: skipn 3 (steps quick_selection)
  /\ fst (install_loop (firstn 2 (steps quick_selection)) (read_only_disk false)
            [ConsoleLog (install_headline false)]) = Ret tt
  /\ fst (install quick_selection (read_only_disk false) []) = Exit 1%Z
  /\ started (js "Set up API Keys") (snd (install quick_selection (read_only_disk false) []))
     = 0%nat.
Proof.
  split; [reflexivity|]. split; [reflexivity|].
  destruct (@install_aborts_on_refusal quick_selection (read_only_disk false) []
              (firstn 2 (steps quick_selection)) (skipn 3 (steps quick_selection))
              {| step_name := js "Configure Settings";
                 fn := configureSettings quick_selection |}
              _ _ _ eq_refl eq_refl eq_refl eq_refl)
    as [Hrun _].
  rewrite Hrun. split; reflexivity.
Defined.



(* ------------------------------------------------------------------ *)
(** ** The runtime precondition *)

(** C7, as the claim states it, fails in quick mode: started with
    [--vscode --claude] on Node.js 16, the wizard skips the detection of
    the environment, runs all five steps and returns; and when a step
    fails there, the operator is asked. *)
Lemma run_quick_mode_skips_precondition :
  lt18 (major_version (js "v16.20.2")) = true
  /\ fst (run (with_quick_flags (calm "v16.20.2" false)) []) = Ret tt
  /\ map (fun name => started (js name) (snd (run (with_quick_flags (calm "v16.20.2" false)) [])))
       ["Install MCP Intelligence"; "Install IDE Extensions"; "Configure Settings";
        "Set up API Keys"; "Create Sample Project"]%string
     = [1; 1; 1; 1; 1]%nat
  /\ In (Confirm (js "Continue anyway?"))
        (snd (run (with_version (js "v16.20.2") (npm_down false)) [])).
Proof. repeat split; vm_compute; auto. Qed.

(** C7, amended: in interactive mode (not both of [--vscode] and
    [--claude] given), on a runtime whose major version is below 18, the
    run ends with exit code 1 right after the detection of the
    environment: the required version is printed, no installation step is
    started and the operator is asked nothing. *)
Theorem run_halts_on_old_runtime (env : Env) (h : history) (major : Z) :
  opt_vscode env && opt_claude env = false ->
  major_version (process_version env) = Some major ->
  (major < 18)%Z ->
  exists events,
    run env h = (Exit 1%Z, events ++ h)
    /\ main env h = (Exit 1%Z, events ++ h)
    /\ events
       = [ ConsoleLog (chalk (chalk_colors env) [red]
             (js "⚠️  Node.js 18+ required (you have " ++ process_version env ++ js ")"));
           SpinnerSucceed (js "Environment detected");
           ExecSync (js "cursor --version");
           ExecSync (js "idea --version");
           ExecSync (js "code --version");
           SpinnerStart (js "Detecting environment...");
           ConsoleLog (chalk (chalk_colors env) [cyan] banner);
           ConsoleClear ]
    /\ (1 <> 0)%Z
    /\ forallb (fun e => negb (prompt_event e)) events = true
    /\ forall config s, In s (steps config) -> started (step_name s) events = 0%nat.
Proof.
  intros Hmode Hmajor Hold.
  assert (Hlt : lt18 (major_version (process_version env)) = true).
  { rewrite Hmajor. cbn [lt18]. apply Z.ltb_lt. exact Hold. }
  eexists. split; [|split; [|split; [reflexivity|]]].
  - unfold run, bind, emit, with_env, console_log, emit. rewrite Hmode.
    unfold detectEnvironment, detect, bind, spinner_start, spinner_succeed, emit, try_catch,
      execSync, with_env, console_log, emit, process_exit, ret.
    destruct (exec_oracle env _ (js "code --version"));
      destruct (exec_oracle env _ (js "idea --version"));
      destruct (exec_oracle env _ (js "cursor --version"));
      rewrite Hlt; reflexivity.
  - unfold main, try_catch.
    unfold run, bind, emit, with_env, console_log, emit. rewrite Hmode.
    unfold detectEnvironment, detect, bind, spinner_start, spinner_succeed, emit, try_catch,
      execSync, with_env, console_log, emit, process_exit, ret.
    destruct (exec_oracle env _ (js "code --version"));
      destruct (exec_oracle env _ (js "idea --version"));
      destruct (exec_oracle env _ (js "cursor --version"));
      rewrite Hlt; reflexivity.
  - split; [discriminate|]. split; [reflexivity|].
    intros config s Hin. unfold steps in Hin. cbn [In] in Hin.
    destruct Hin as [<-|[<-|[<-|[<-|[<-|[]]]]]]; reflexivity.
Qed.

Lemma run_halts_on_old_runtime_witness :
  opt_vscode (calm "v16.20.2" true) && opt_claude (calm "v16.20.2" true) = false
  /\ major_version (process_version (calm "v16.20.2" true)) = Some 16%Z
  /\ fst (run (calm "v16.20.2" true) []) = Exit 1%Z
  /\ length (snd (run (calm "v16.20.2" true) [])) = 8%nat.
Proof.
  split; [reflexivity|]. split; [reflexivity|].
  destruct (@run_halts_on_old_runtime (calm "v16.20.2" true) [] 16%Z
              eq_refl eq_refl eq_refl)
    as [events [Hrun [_ [Hevents _]]]].
  rewrite Hrun, Hevents. split; reflexivity.
Defined.

(* ================================================================== *)
(** * Further properties *)

(* ------------------------------------------------------------------ *)
(** ** Detecting the environment *)

(** X1: on the version string of a release -- [v], the major version in
    decimal digits, a full stop and anything after it -- the expression
    [parseInt(version.split('.')[0].substring(1))] of the wizard and of
    the health check is the major version, also with leading zeros, for
    every major version below 2^53, up to where the double that
    [parseInt] returns is the integer read. *)
Theorem major_version_of_release (d : N) (digits : list N) (rest : jsstring) :
  Forall (fun d => d < 10) (d :: digits) ->
  decimal_value (d :: digits) < 2 ^ 53 ->
  major_version (release (d :: digits) rest)
  = Some (Z.of_N (decimal_value (d :: digits))).
Proof. intros Hdigits _. apply major_version_release, Hdigits. Qed.

Lemma major_version_of_release_witness :
  Forall (fun d => d < 10) [2; 0]
  /\ decimal_value [2; 0] < 2 ^ 53
  /\ release [2; 0] (js "11.0") = js "v20.11.0"
  /\ major_version (release [2; 0] (js "11.0")) = Some 20%Z.
Proof.
  assert (H : Forall (fun d => d < 10) [2; 0]) by (repeat constructor).
  assert (B : decimal_value [2; 0] < 2 ^ 53) by reflexivity.
  split; [exact H|]. split; [exact B|]. split; [reflexivity|].
  exact (@major_version_of_release 2 [0] (js "11.0") H B).
Defined.

(** The three probes and what they leave behind, whatever they answer. *)
Lemma detectEnvironment_outcome (env : Env) (h : history) :
  exists detected tail_events,
    snd (detectEnvironment env h)
    = tail_events
      ++ [ SpinnerSucceed (js "Environment detected");
           ExecSync (js "cursor --version");
           ExecSync (js "idea --version");
           ExecSync (js "code --version");
           SpinnerStart (js "Detecting environment...") ] ++ h
    /\ forallb (fun e => match e with ConsoleLog _ => true | _ => false end) tail_events = true
    /\ fst (detectEnvironment env h)
       = (if lt18 (major_version (process_version env)) then Exit 1%Z else Ret detected)
    /\ incl detected [js "VS Code"; js "IntelliJ IDEA"; js "Cursor"].
Proof.
  unfold detectEnvironment, detect, bind, spinner_start, spinner_succeed, emit, try_catch,
    execSync, with_env, console_log, emit, process_exit, ret.
  destruct (exec_oracle env _ (js "code --version"));
    destruct (exec_oracle env _ (js "idea --version"));
    destruct (exec_oracle env _ (js "cursor --version"));
    destruct (lt18 (major_version (process_version env)));
    cbn [app fst snd];
    eexists;
    first [ eexists [_]; split; [reflexivity|] | exists (@nil event); split; [reflexivity|] ];
    (split; [reflexivity|]); (split; [reflexivity|]);
    first [ apply incl_nil_l | intros x Hx; cbn [In app] in *; tauto ].
Qed.

(** X2: on the version string of a release the wizard's gate and the
    runtime check agree: the wizard halts at the detection exactly when
    [checkNode] fails.  On a version whose major part is not a number the
    wizard goes on although [checkNode] fails. *)
Theorem version_gate_agreement (env : Env) (h h' : history) :
  exists result,
    checkNode env h' = (Ret result, h')
    /\ (fst (detectEnvironment env h) = Exit 1%Z -> success result = VBool false)
    /\ (forall major,
          major_version (process_version env) = Some major ->
          (fst (detectEnvironment env h) = Exit 1%Z <-> success result = VBool false))
    /\ (major_version (process_version env) = None ->
        success result = VBool false
        /\ exists detected, fst (detectEnvironment env h) = Ret detected).
Proof.
  destruct (detectEnvironment_outcome env h) as [detected [tail_events [_ [_ [Hfst _]]]]].
  eexists. split; [reflexivity|]. cbn [success]. rewrite Hfst.
  destruct (major_version (process_version env)) as [major|]; cbn [lt18 ge18].
  - destruct (Z.ltb_spec major 18) as [Hlt|Hge].
    + assert (E : (18 <=? major)%Z = false) by (apply Z.leb_gt; exact Hlt).
      rewrite E. repeat split; auto. discriminate.
    + assert (E : (18 <=? major)%Z = true) by (apply Z.leb_le; exact Hge).
      rewrite E. repeat split; try discriminate.
  - repeat split; try discriminate. exists detected. reflexivity.
Qed.

(** X3: the detection asks for all three editors, in the order code, idea,
    cursor, whatever the earlier ones answered; a failed probe is not an
    error.  It ends by returning the editors found, all among the three
    it knows, or, on a runtime below 18, by exit code 1; it never throws. *)
Theorem detectEnvironment_probes_all (env : Env) (h : history) :
  exists events detected,
    snd (detectEnvironment env h) = events ++ h
    /\ commands events = [js "code --version"; js "idea --version"; js "cursor --version"]
    /\ count_events prompt_event events = 0%nat
    /\ count_events is_write events = 0%nat
    /\ (fst (detectEnvironment env h) = Ret detected
        \/ fst (detectEnvironment env h) = Exit 1%Z)
    /\ incl detected [js "VS Code"; js "IntelliJ IDEA"; js "Cursor"].
Proof.
  destruct (detectEnvironment_outcome env h) as [detected [tail_events [Hsnd [Hlog [Hfst Hin]]]]].
  exists (tail_events
            ++ [ SpinnerSucceed (js "Environment detected");
                 ExecSync (js "cursor --version");
                 ExecSync (js "idea --version");
                 ExecSync (js "code --version");
                 SpinnerStart (js "Detecting environment...") ]).
  exists detected. split; [rewrite Hsnd; apply app_assoc|].
  assert (Hcmd : commands tail_events = [] /\ count_events prompt_event tail_events = 0%nat
                 /\ count_events is_write tail_events = 0%nat).
  { clear - Hlog. induction tail_events as [|e l IH]; [auto|].
    cbn [forallb] in Hlog. apply andb_prop in Hlog as [He Hl].
    destruct e; try discriminate He. destruct (IH Hl) as [A [B C]].
    unfold count_events in *. cbn. auto. }
  destruct Hcmd as [Hc [Hp Hw]].
  assert (Happ : forall (a b : list event),
             commands (a ++ b) = commands b ++ commands a).
  { intros a b. induction a as [|e a IH]; cbn [app commands].
    - now rewrite app_nil_r.
    - destruct e; rewrite ?IH, ?app_assoc; reflexivity. }
  unfold count_events in *.
  rewrite Happ, Hc, !filter_app, !length_app, Hp, Hw.
  split; [reflexivity|]. split; [reflexivity|]. split; [reflexivity|].
  split; [|exact Hin].
  rewrite Hfst. destruct (lt18 _); auto.
Qed.

(* ------------------------------------------------------------------ *)
(** ** The bodies of the steps *)

(** X4: installing the editor extensions never fails the step: every
    [code --install-extension] command that throws is ignored and the next
    one is still run, nothing is written and nothing is asked.  For VS
    Code the commands are the MCP extension, then Claude's when the
    assistant is claude or both, then Copilot's when it is copilot or
    both; for no other editor is a command run. *)
Theorem installIDEExtensions_never_fails (config : Config) (env : Env) (h : history) :
  exists events,
    installIDEExtensions config env h = (Ret tt, events ++ h)
    /\ count_events prompt_event events = 0%nat
    /\ count_events is_write events = 0%nat
    /\ commands events
       = if str_eqb (ide config) (js "vscode") then
           map (fun ext => js "code --install-extension " ++ ext)
             ([js "mcp.mcp-intelligence"]
              ++ (if str_eqb (ai config) (js "claude") || str_eqb (ai config) (js "both")
                  then [js "Anthropic.claude-vscode"] else [])
              ++ (if str_eqb (ai config) (js "copilot") || str_eqb (ai config) (js "both")
                  then [js "GitHub.copilot"] else []))
         else [].
Proof.
  unfold installIDEExtensions.
  destruct (str_eqb (ide config) (js "vscode")).
  - destruct (str_eqb (ai config) (js "claude") || str_eqb (ai config) (js "both"));
      destruct (str_eqb (ai config) (js "copilot") || str_eqb (ai config) (js "both"));
      cbn [app install_extensions map];
      unfold try_catch, bind, execSync, ret; split_branches;
      first [ eexists [_]; repeat split; reflexivity
            | eexists [_; _]; repeat split; reflexivity
            | eexists [_; _; _]; repeat split; reflexivity ].
  - destruct (str_eqb (ide config) (js "jetbrains")).
    + unfold with_env, bind, console_log, emit.
      eexists [_; _; _; _; _]. repeat split; reflexivity.
    + destruct (str_eqb (ide config) (js "cursor")).
      * unfold with_env, bind, console_log, emit. eexists [_]. repeat split; reflexivity.
      * exists []. repeat split; reflexivity.
Qed.

(** Without a key -- none given, or an empty one -- [setupAPIKeys] prints
    the reminder and returns. *)
Lemma setupAPIKeys_without_key (config : Config) (env : Env) (h : history) :
  truthy_text (apiKey config) = false ->
  setupAPIKeys config env h
  = (Ret tt,
     ConsoleLog (chalk (chalk_colors env) [yellow] (js "
  ⚠️  Remember to add your API key later")) :: h).
Proof.
  intros Hkey. unfold setupAPIKeys, with_env. rewrite Hkey. reflexivity.
Qed.

(** The three file operations of [setupAPIKeys], in their order. *)
Lemma setupAPIKeys_trace (config : Config) (env : Env) (h : history)
    (key : jsstring) :
  apiKey config = Some key -> key <> [] ->
  exists done,
    (1 <= done <= 3)%nat
    /\ snd (setupAPIKeys config env h)
       = rev (firstn done
                [ FsMkdir (configDir env);
                  FsWriteFile (credentials_path env)
                    (Stringified (credentials_document (ai config) key) 2);
                  FsChmod (credentials_path env) 384 ]) ++ h
    /\ (fst (setupAPIKeys config env h) = Ret tt
        \/ exists msg, fst (setupAPIKeys config env h) = Throw msg)
    /\ (fst (setupAPIKeys config env h) = Ret tt -> done = 3%nat)
    /\ ((forall h' request, fs_oracle env h' request = None) ->
        fst (setupAPIKeys config env h) = Ret tt).
Proof.
  intros Hkey Hfull. destruct key as [|c key]; [contradiction|].
  unfold setupAPIKeys, with_env. rewrite Hkey. cbn [truthy_text negb].
  unfold bind, fs_mkdir, fs_writeFile, fs_chmod, fs_call, credentials_path, configDir,
    credentials_document.
  destruct (fs_oracle env h _) eqn:E1.
  - exists 1%nat. split; [lia|]. split; [reflexivity|]. split; [right; eexists; reflexivity|].
    split; [discriminate|]. intros Hall. rewrite Hall in E1. discriminate E1.
  - destruct (fs_oracle env (FsMkdir _ :: h) _) eqn:E2.
    + exists 2%nat. split; [lia|]. split; [reflexivity|].
      split; [right; eexists; reflexivity|].
      split; [discriminate|]. intros Hall. rewrite Hall in E2. discriminate E2.
    + destruct (fs_oracle env (FsWriteFile _ _ :: FsMkdir _ :: h) _) eqn:E3.
      * exists 3%nat. split; [lia|]. split; [reflexivity|].
        split; [right; eexists; reflexivity|].
        split; [discriminate|]. intros Hall. rewrite Hall in E3. discriminate E3.
      * exists 3%nat. split; [lia|]. split; [reflexivity|]. split; [left; reflexivity|].
        split; reflexivity.
Qed.

(** X6: with a key, [setupAPIKeys] creates the directory, writes the
    store and only then restricts its mode to 0600.  The first of the
    three that fails ends the step with its error, and nothing after it
    is attempted: no write after a failed [mkdir], no [chmod] after a
    failed write; when none fails the step returns.  The store is the
    file [checkAPIKeys] reads, and holds the key under [claude] when the
    assistant is claude or both, [null] otherwise, and [null] under
    [github]. *)
Theorem setupAPIKeys_with_key (config : Config) (env : Env) (h : history)
    (key : jsstring) :
  apiKey config = Some key -> key <> [] ->
  let dir := configDir env in
  let store := credentials_path env in
  let document :=
    Stringified
      (VObj [ (js "claude",
               if str_eqb (ai config) (js "claude") || str_eqb (ai config) (js "both")
               then VStr key else VNull);
              (js "github", VNull) ]) 2 in
  setupAPIKeys config env h
  = match fs_oracle env h (Mkdir dir) with
    | Some msg => (Throw msg, FsMkdir dir :: h)
    | None =>
      match fs_oracle env (FsMkdir dir :: h) (WriteFile store document) with
      | Some msg => (Throw msg, FsWriteFile store document :: FsMkdir dir :: h)
      | None =>
        match fs_oracle env (FsWriteFile store document :: FsMkdir dir :: h)
                (Chmod store 384) with
        | Some msg =>
          (Throw msg, FsChmod store 384 :: FsWriteFile store document :: FsMkdir dir :: h)
        | None =>
          (Ret tt, FsChmod store 384 :: FsWriteFile store document :: FsMkdir dir :: h)
        end
      end
    end.
Proof.
  intros Hkey Hfull. destruct key as [|c key]; [contradiction|].
  unfold setupAPIKeys, with_env. rewrite Hkey. cbn [truthy_text negb]. cbv zeta.
  unfold bind, fs_mkdir, fs_writeFile, fs_chmod, fs_call, credentials_path, configDir.
  destruct (fs_oracle env h _); [reflexivity|].
  destruct (fs_oracle env (FsMkdir _ :: h) _); [reflexivity|].
  destruct (fs_oracle env (FsWriteFile _ _ :: FsMkdir _ :: h) _); reflexivity.
Qed.

Lemma setupAPIKeys_with_key_witness :
  apiKey keyed_selection = Some (js "sk-ant-0123")
  /\ js "sk-ant-0123" <> []
  /\ setupAPIKeys keyed_selection (calm "v20.11.0" false) []
     = (Ret tt,
        [ FsChmod (js "/home/dev/.mcp-intelligence/credentials.json") 384;
          FsWriteFile (js "/home/dev/.mcp-intelligence/credentials.json")
            (Stringified (VObj [(js "claude", VStr (js "sk-ant-0123")); (js "github", VNull)]) 2);
          FsMkdir (js "/home/dev/.mcp-intelligence") ])
  /\ setupAPIKeys keyed_selection (read_only_disk true) []
     = (Throw (js "EACCES: permission denied"),
        [ FsMkdir (js "/home/dev/.mcp-intelligence") ]).
Proof.
  assert (Hne : js "sk-ant-0123" <> []) by discriminate.
  split; [reflexivity|]. split; [exact Hne|]. split.
  - rewrite (@setupAPIKeys_with_key keyed_selection (calm "v20.11.0" false) []
               (js "sk-ant-0123") eq_refl Hne).
    vm_compute. reflexivity.
  - rewrite (@setupAPIKeys_with_key keyed_selection (read_only_disk true) []
               (js "sk-ant-0123") eq_refl Hne).
    vm_compute. reflexivity.
Defined.

(** X7: a store written by [setupAPIKeys] and read back as written is
    reported by [checkAPIKeys] as configured, with the key itself as
    [success], when the assistant is claude or both; for any other
    assistant the store written holds only [null] and is reported as not
    configured. *)
Theorem credentials_round_trip (config : Config) (env : Env) (h h1 h2 : history)
    (key : jsstring) :
  apiKey config = Some key -> key <> [] ->
  setupAPIKeys config env h = (Ret tt, h1) ->
  fs_oracle env h2 (Access (credentials_path env)) = None ->
  read_oracle env (FsAccess (credentials_path env) :: h2) (credentials_path env)
  = Parsed (credentials_document (ai config) key) ->
  In (FsWriteFile (credentials_path env)
        (Stringified (credentials_document (ai config) key) 2)) h1
  /\ checkAPIKeys env h2
     = (Ret (if apiKey_when (ai config)
             then {| success := VStr key; message := js "Configured" |}
             else {| success := VNull; message := js "Not configured" |}),
        FsReadFile (credentials_path env) :: FsAccess (credentials_path env) :: h2).
Proof.
  intros Hkey Hfull Hset Hacc Hread. split.
  - destruct (@setupAPIKeys_trace config env h key Hkey Hfull)
      as [done [_ [Hsnd [_ [Hdone _]]]]].
    rewrite Hset in Hsnd, Hdone. cbn [fst snd] in Hsnd, Hdone.
    rewrite (Hdone eq_refl) in Hsnd. rewrite Hsnd.
    cbn [firstn rev app In]. auto.
  - rewrite (@checkAPIKeys_parsed env h2 _ Hacc Hread) by discriminate.
    unfold credentials_document, apiKey_when. cbn [field_of].
    destruct (str_eqb (ai config) (js "claude") || str_eqb (ai config) (js "both")).
    + destruct key as [|c key]; [contradiction|]. reflexivity.
    + reflexivity.
Qed.

Lemma credentials_round_trip_witness :
  apiKey keyed_selection = Some (js "sk-ant-0123")
  /\ read_oracle (calm "v20.11.0" false) [] (credentials_path (calm "v20.11.0" false))
     = Parsed (credentials_document (ai keyed_selection) (js "sk-ant-0123"))
  /\ fst (checkAPIKeys (calm "v20.11.0" false)
            (snd (setupAPIKeys keyed_selection (calm "v20.11.0" false) [])))
     = Ret {| success := VStr (js "sk-ant-0123"); message := js "Configured" |}.
Proof.
  assert (Hne : js "sk-ant-0123" <> []) by discriminate.
  split; [reflexivity|]. split; [reflexivity|].
  destruct (@credentials_round_trip keyed_selection (calm "v20.11.0" false) []
              (snd (setupAPIKeys keyed_selection (calm "v20.11.0" false) []))
              (snd (setupAPIKeys keyed_selection (calm "v20.11.0" false) []))
              (js "sk-ant-0123") eq_refl Hne eq_refl eq_refl eq_refl)
    as [_ Hcheck].
  rewrite Hcheck. reflexivity.
Defined.

(** X8: [configureSettings] creates the directory of the configuration
    file before it writes the file.  When the directory cannot be created
    the step ends there with that error and nothing is written; when the
    write fails the step ends with the error of the write; otherwise it
    returns.  Whatever the editor, the directory created is the one the
    path of the file starts with. *)
Theorem configureSettings_directory_first (config : Config) (env : Env) (h : history) :
  let file := getConfigPath (ide config) in
  let dir := path_dirname file in
  let document := Stringified (settings_document env (useCase config)) 2 in
  configureSettings config env h
  = match fs_oracle env h (Mkdir dir) with
    | Some msg => (Throw msg, FsMkdir dir :: h)
    | None =>
      match fs_oracle env (FsMkdir dir :: h) (WriteFile file document) with
      | Some msg => (Throw msg, FsWriteFile file document :: FsMkdir dir :: h)
      | None => (Ret tt, FsWriteFile file document :: FsMkdir dir :: h)
      end
    end
  /\ starts_with file (dir ++ js "/") = true
  /\ In dir [js ".vscode"; js ".idea"; js ".cursor"; js ".mcp"].
Proof.
  cbv zeta.
  assert (Hdir : starts_with (getConfigPath (ide config))
                   (path_dirname (getConfigPath (ide config)) ++ js "/") = true
                 /\ In (path_dirname (getConfigPath (ide config)))
                      [js ".vscode"; js ".idea"; js ".cursor"; js ".mcp"]).
  { unfold getConfigPath.
    destruct (str_eqb (ide config) (js "vscode")); [split; [reflexivity|vm_compute; auto]|].
    destruct (str_eqb (ide config) (js "jetbrains")); [split; [reflexivity|vm_compute; auto]|].
    destruct (str_eqb (ide config) (js "cursor")); split;
      (reflexivity || (vm_compute; auto)). }
  split; [|exact Hdir].
  unfold configureSettings, with_env, bind, fs_mkdir, fs_writeFile, fs_call.
  destruct (fs_oracle env h _); [reflexivity|].
  destruct (fs_oracle env (FsMkdir _ :: h) _); reflexivity.
Qed.

Lemma sample_choice (useCase : jsstring) :
  inherited useCase = false ->
  exists sample,
    js_or (object_get samples useCase) (object_get samples (js "web")) = VStr sample
    /\ In (VStr sample) (map snd samples)
    /\ (useCase <> js "data" -> useCase <> js "mobile" ->
        Some (VStr sample) = own_property samples (js "web")).
Proof.
  intros Hi.
  pose (text := fun i => match nth i (map snd samples) VNull with VStr s => s | _ => [] end).
  unfold object_get at 1. rewrite Hi.
  unfold samples at 1. cbn [own_property].
  destruct (str_eqb (js "web") useCase) eqn:Ew.
  { exists (text 0%nat). split; [vm_compute; reflexivity|].
    split; [vm_compute; auto|]. intros _ _. vm_compute. reflexivity. }
  destruct (str_eqb (js "data") useCase) eqn:Ed.
  { exists (text 1%nat). split; [vm_compute; reflexivity|].
    split; [vm_compute; auto|].
    intros Hd _. apply str_eqb_eq in Ed. symmetry in Ed. contradiction. }
  destruct (str_eqb (js "mobile") useCase) eqn:Em.
  { exists (text 2%nat). split; [vm_compute; reflexivity|].
    split; [vm_compute; auto|].
    intros _ Hm. apply str_eqb_eq in Em. symmetry in Em. contradiction. }
  exists (text 0%nat). split; [vm_compute; reflexivity|].
  split; [vm_compute; auto|]. intros _ _. vm_compute. reflexivity.
Qed.

(** X9: for a use case that names nothing an object inherits,
    [createSampleProject] attempts exactly one thing: writing one of its
    three samples to [mcp-test-file.js] -- the Python sample for data and
    the Swift one for mobile too -- and it is the web sample unless the use
    case is data or mobile. *)
Theorem createSampleProject_one_write (config : Config) (env : Env) (h : history) :
  inherited (useCase config) = false ->
  exists sample,
    In (VStr sample) (map snd samples)
    /\ snd (createSampleProject config env h)
       = [FsWriteFile (js "mcp-test-file.js") (Text sample)] ++ h
    /\ (fst (createSampleProject config env h) = Ret tt
        <-> fs_oracle env h (WriteFile (js "mcp-test-file.js") (Text sample)) = None)
    /\ (useCase config <> js "data" -> useCase config <> js "mobile" ->
        Some (VStr sample) = own_property samples (js "web")).
Proof.
  intros Hi. destruct (sample_choice _ Hi) as [sample [Hsample [Hin Hweb]]].
  exists sample. split; [exact Hin|].
  unfold createSampleProject. rewrite Hsample.
  unfold fs_writeFile, fs_call.
  destruct (fs_oracle env h _) as [msg|]; cbn [fst snd].
  - split; [reflexivity|]. split; [split; discriminate|exact Hweb].
  - split; [reflexivity|]. split; [split; reflexivity|exact Hweb].
Qed.

Lemma createSampleProject_one_write_witness :
  inherited (useCase keyed_selection) = false
  /\ exists sample,
       In (VStr sample) (map snd samples)
       /\ snd (createSampleProject keyed_selection (calm "v20.11.0" false) [])
          = [FsWriteFile (js "mcp-test-file.js") (Text sample)] ++ [].
Proof.
  split; [reflexivity|].
  destruct (@createSampleProject_one_write keyed_selection (calm "v20.11.0" false) []
              eq_refl) as [sample [Hin [Hsnd _]]].
  exists sample. split; [exact Hin|exact Hsnd].
Defined.

(* ------------------------------------------------------------------ *)
(** ** The pipeline as a whole *)

Lemma started_names_app (a b : list event) :
  started_names (a ++ b) = started_names b ++ started_names a.
Proof.
  induction a as [|e a IH]; cbn [app started_names].
  - now rewrite app_nil_r.
  - destruct e; rewrite ?IH, ?app_assoc; reflexivity.
Qed.

Lemma count_events_app (p : event -> bool) (a b : list event) :
  count_events p (a ++ b) = (count_events p a + count_events p b)%nat.
Proof. unfold count_events. now rewrite filter_app, length_app. Qed.

(** The body of a step leaves no trace of the loop's own kind. *)
Lemma body_is_silent (body : list event) :
  forallb action_event body = true ->
  started_names body = []
  /\ count_events is_confirm body = 0%nat
  /\ count_events is_fail body = 0%nat
  /\ count_events is_succeed body = 0%nat
  /\ count_events prompt_event body = 0%nat.
Proof.
  induction body as [|e body IH]; [repeat split|].
  cbn [forallb]. intros H. apply andb_prop in H as [He Hr].
  destruct (IH Hr) as [A [B [C [D E]]]].
  unfold count_events in *.
  destruct e; try discriminate He; cbn; auto.
Qed.

(** How one iteration ends: the step succeeded, or it failed and the
    operator said yes, or it failed and the operator said no. *)
Lemma run_step_events (s : step) (env : Env) (h : history) :
  contained (fn s) ->
  exists body,
    forallb action_event body = true
    /\ snd (fn s env (SpinnerStart (step_name s) :: h))
       = body ++ [SpinnerStart (step_name s)] ++ h
    /\ (run_step s env h
        = (Ret tt, [SpinnerSucceed (step_name s)] ++ body ++ [SpinnerStart (step_name s)] ++ h)
        \/ exists e,
             run_step s env h
             = (Ret tt, failure_events env s e ++ body ++ [SpinnerStart (step_name s)] ++ h)
             \/ run_step s env h
                = (Exit 1%Z,
                   failure_events env s e ++ body ++ [SpinnerStart (step_name s)] ++ h)).
Proof.
  intros Hc.
  destruct (Hc env (SpinnerStart (step_name s) :: h)) as [[body [Hsnd Hact]] Hstay].
  destruct (fn s env (SpinnerStart (step_name s) :: h)) as [[[]|e|code] h2] eqn:E;
    cbn [fst snd] in *; subst h2; exists body; (split; [exact Hact|]);
    (split; [reflexivity|]).
  - left. unfold run_step, bind, spinner_start, emit, try_catch, spinner_succeed.
    rewrite E. reflexivity.
  - right. exists e.
    unfold run_step, bind, spinner_start, emit, try_catch, spinner_fail, with_env,
      console_error, emit, confirm, failure_events.
    rewrite E. cbn [app].
    destruct (confirm_oracle env _); cbn [negb]; [left|right]; reflexivity.
  - now elim (Hstay code).
Qed.

Lemma install_loop_trace (l : list step) (env : Env) :
  Forall (fun s => contained (fn s)) l ->
  forall h, exists events reached,
    snd (install_loop l env h) = events ++ h
    /\ (reached <= length l)%nat
    /\ started_names events = firstn reached (map step_name l)
    /\ count_events is_confirm events = count_events is_fail events
    /\ count_events prompt_event events = count_events is_fail events
    /\ (count_events is_succeed events + count_events is_fail events)%nat = reached
    /\ ((fst (install_loop l env h) = Ret tt /\ reached = length l)
        \/ (fst (install_loop l env h) = Exit 1%Z
            /\ exists rest, events = Confirm (js "Continue anyway?") :: rest)).
Proof.
  induction 1 as [|s l Hs _ IH]; intros h.
  - exists [], 0%nat. repeat split; auto.
  - destruct (run_step_events s env h Hs) as [body [Hact [_ Hrun]]].
    destruct (body_is_silent _ Hact) as [Bn [Bc [Bf [Bs Bp]]]].
    cbn [install_loop]. unfold bind.
    destruct Hrun as [Hrun | [e [Hrun | Hrun]]]; rewrite Hrun.
    + destruct (IH ([SpinnerSucceed (step_name s)] ++ body ++ [SpinnerStart (step_name s)] ++ h))
        as [events [reached [Hsnd [Hle [Hnames [Hcf [Hpf [Hsum Hend]]]]]]]].
      exists (events ++ [SpinnerSucceed (step_name s)] ++ body ++ [SpinnerStart (step_name s)]),
        (S reached).
      split; [rewrite Hsnd, <- !app_assoc; reflexivity|].
      split; [cbn [length]; lia|].
      rewrite !started_names_app, !count_events_app, Bn, Bc, Bf, Bs, Bp, Hnames.
      cbn [started_names count_events filter is_confirm is_fail is_succeed prompt_event
             length app map firstn].
      repeat split; try lia.
      destruct Hend as [[Hret Hall] | [Hexit [rest Hrest]]].
      * left. split; [exact Hret|]. cbn [length]. lia.
      * right. split; [exact Hexit|]. rewrite Hrest. eexists. reflexivity.
    + destruct (IH (failure_events env s e ++ body ++ [SpinnerStart (step_name s)] ++ h))
        as [events [reached [Hsnd [Hle [Hnames [Hcf [Hpf [Hsum Hend]]]]]]]].
      exists (events ++ failure_events env s e ++ body ++ [SpinnerStart (step_name s)]),
        (S reached).
      split; [rewrite Hsnd, <- !app_assoc; reflexivity|].
      split; [cbn [length]; lia|].
      rewrite !started_names_app, !count_events_app, Bn, Bc, Bf, Bs, Bp, Hnames.
      unfold failure_events.
      cbn [started_names count_events filter is_confirm is_fail is_succeed prompt_event
             length app map firstn].
      repeat split; try lia.
      destruct Hend as [[Hret Hall] | [Hexit [rest Hrest]]].
      * left. split; [exact Hret|]. cbn [length]. lia.
      * right. split; [exact Hexit|]. rewrite Hrest. eexists. reflexivity.
    + exists (failure_events env s e ++ body ++ [SpinnerStart (step_name s)]), 1%nat.
      split; [cbn [snd]; rewrite <- !app_assoc; reflexivity|].
      split; [cbn [length]; lia|].
      rewrite !started_names_app, !count_events_app, Bn, Bc, Bf, Bs, Bp.
      unfold failure_events.
      cbn [started_names count_events filter is_confirm is_fail is_succeed prompt_event
             length app map firstn].
      repeat split; try lia.
      right. split; [reflexivity|]. eexists. reflexivity.
Qed.

(** X10: in every run of [install] the steps are started in the declared
    order, each at most once and none before its predecessors: the names
    started are the first [reached] of the five.  Every step started is
    resolved as succeeded or failed, every failure is followed by exactly
    one question and nothing else is ever asked.  The run returns only
    after all five were started, and otherwise ends by exit code 1 right
    after a question. *)
Theorem install_runs_in_order (config : Config) (env : Env) (h : history) :
  exists events reached,
    snd (install config env h)
    = events ++ [ConsoleLog (install_headline (chalk_colors env))] ++ h
    /\ (reached <= 5)%nat
    /\ started_names events
       = firstn reached
           [js "Install MCP Intelligence"; js "Install IDE Extensions";
            js "Configure Settings"; js "Set up API Keys"; js "Create Sample Project"]
    /\ count_events is_confirm events = count_events is_fail events
    /\ count_events prompt_event events = count_events is_fail events
    /\ (count_events is_succeed events + count_events is_fail events)%nat = reached
    /\ ((fst (install config env h) = Ret tt /\ reached = 5%nat)
        \/ (fst (install config env h) = Exit 1%Z
            /\ exists rest, events = Confirm (js "Continue anyway?") :: rest)).
Proof.
  destruct (install_loop_trace env (steps_contained config)
              (ConsoleLog (install_headline (chalk_colors env)) :: h))
    as [events [reached H]].
  exists events, reached.
  assert (Hnames : map step_name (steps config)
                   = [js "Install MCP Intelligence"; js "Install IDE Extensions";
                      js "Configure Settings"; js "Set up API Keys";
                      js "Create Sample Project"])
    by (vm_compute; reflexivity).
  rewrite Hnames in H. change (length (steps config)) with 5%nat in H.
  unfold install, bind at 1, with_env, console_log, emit.
  cbn [app]. exact H.
Qed.

(** [verify] and [showNextSteps] always return. *)
Lemma verify_returns (env : Env) (h : history) :
  exists events, verify env h = (Ret tt, events ++ h).
Proof.
  unfold verify, with_env, bind, console_log, spinner_start, spinner_succeed, spinner_warn,
    emit, try_catch, execSync.
  destruct (exec_oracle env _ _).
  - eexists [_; _; _; _; _]. reflexivity.
  - eexists [_; _; _; _; _; _]. reflexivity.
Qed.

Lemma showNextSteps_returns (config : Config) (env : Env) (h : history) :
  exists events,
    showNextSteps config env h
    = (Ret tt,
       [ConsoleLog ([10] ++ chalk (chalk_colors env) [magenta]
          (js "💡 Tip: Run `mcp-ide metrics` to see your performance gains!"))]
       ++ events ++ h).
Proof.
  unfold showNextSteps, with_env, bind, console_log, emit, ret.
  destruct (str_eqb (ide config) (js "vscode")).
  - eexists [_; _; _; _; _; _; _; _; _; _; _; _]. reflexivity.
  - eexists [_; _; _; _; _; _; _]. reflexivity.
Qed.

Lemma install_settles (config : Config) (env : Env) (h : history) :
  fst (install config env h) = Ret tt \/ fst (install config env h) = Exit 1%Z.
Proof.
  destruct (install_loop_trace env (steps_contained config)
              (ConsoleLog (install_headline (chalk_colors env)) :: h))
    as [events [reached [_ [_ [_ [_ [_ [_ H]]]]]]]].
  unfold install, bind at 1 2, with_env, console_log, emit.
  destruct H as [[H _] | [H _]]; auto.
Qed.

(** The two modes of [run]. *)
Lemma run_modes (env : Env) (h : history) (P : outcome unit * history -> Prop) :
  (opt_vscode env && opt_claude env = true ->
   P (install quick_selection env
        (ConsoleLog (chalk (chalk_colors env) [cyan] banner) :: ConsoleClear :: h))) ->
  (opt_vscode env && opt_claude env = false ->
   P ((detectEnvironment ;;
       config <- askQuestions ;;
       install config ;;
       verify ;;
       showNextSteps config) env
        (ConsoleLog (chalk (chalk_colors env) [cyan] banner) :: ConsoleClear :: h))) ->
  P (run env h).
Proof.
  intros Hquick Hasked.
  unfold run, bind at 1, emit, with_env at 1, bind at 1, console_log, emit.
  destruct (opt_vscode env && opt_claude env); [apply Hquick | apply Hasked]; reflexivity.
Qed.

(** Interactive mode after a detection that returned. *)
Lemma interactive_after_detection (env : Env) (h0 h1 : history) (detected : list jsstring)
    (P : outcome unit * history -> Prop) :
  detectEnvironment env h0 = (Ret detected, h1) ->
  (forall h2,
     install (questionnaire_oracle env h1) env (Questionnaire :: h1) = (Exit 1%Z, h2) ->
     P (Exit 1%Z, h2)) ->
  (forall h2 verified shown,
     install (questionnaire_oracle env h1) env (Questionnaire :: h1) = (Ret tt, h2) ->
     P (Ret tt,
        [ConsoleLog ([10] ++ chalk (chalk_colors env) [magenta]
           (js "💡 Tip: Run `mcp-ide metrics` to see your performance gains!"))]
        ++ shown ++ verified ++ h2)) ->
  P ((detectEnvironment ;;
      config <- askQuestions ;;
      install config ;;
      verify ;;
      showNextSteps config) env h0).
Proof.
  intros Hdetect Hexit Hret.
  unfold bind at 1. rewrite Hdetect.
  unfold bind at 1, askQuestions. unfold bind at 1.
  pose proof (install_settles (questionnaire_oracle env h1) env (Questionnaire :: h1)) as Hinst.
  destruct (install (questionnaire_oracle env h1) env (Questionnaire :: h1))
    as [[[]|e|code] h2] eqn:E; cbn [fst] in Hinst.
  - unfold bind at 1.
    destruct (verify_returns env h2) as [verified Hv]. rewrite Hv.
    destruct (showNextSteps_returns (questionnaire_oracle env h1) env (verified ++ h2))
      as [shown Hs].
    rewrite Hs. apply (Hret h2 verified shown eq_refl).
  - destruct Hinst as [Hinst|Hinst]; discriminate Hinst.
  - destruct Hinst as [Hinst|Hinst]; [discriminate Hinst|].
    injection Hinst as ->. apply Hexit. reflexivity.
Qed.

(** X12: no failure of a command or of a file operation reaches the
    handler at the top: a run of the wizard either returns or ends by
    exit code 1, it never throws, so "Setup failed" is never printed. *)
Theorem run_never_throws (env : Env) (h : history) :
  (fst (run env h) = Ret tt \/ fst (run env h) = Exit 1%Z)
  /\ main env h = run env h.
Proof.
  assert (Hrun : fst (run env h) = Ret tt \/ fst (run env h) = Exit 1%Z).
  { apply run_modes; intros Hmode.
    - apply install_settles.
    - set (h0 := ConsoleLog _ :: ConsoleClear :: h).
      destruct (detectEnvironment_outcome env h0) as [detected [tail_events [_ [_ [Hfst _]]]]].
      destruct (detectEnvironment env h0) as [[ides|e|code] h1] eqn:E; cbn [fst] in Hfst.
      + apply (@interactive_after_detection env h0 h1 ides
                 (fun r => fst r = Ret tt \/ fst r = Exit 1%Z) E); intros; auto.
      + destruct (lt18 _); discriminate Hfst.
      + right. unfold bind at 1. rewrite E. cbn [fst].
        destruct (lt18 _); [injection Hfst as ->; reflexivity | discriminate Hfst]. }
  split; [exact Hrun|].
  unfold main, try_catch.
  destruct (run env h) as [[[]|e|code] h']; cbn [fst] in Hrun; try reflexivity.
  destruct Hrun as [Hrun|Hrun]; discriminate Hrun.
Qed.

(** X13: with an operator who never declines, the wizard always runs to
    its end -- in quick mode, and in interactive mode on a runtime that is
    not below 18 -- whatever commands and file operations fail on the way;
    a failed health check at the end does not change that.  In
    interactive mode the last line printed is the tip. *)
Theorem run_completes_with_consent (env : Env) (h : history) :
  (opt_vscode env && opt_claude env = true
   \/ lt18 (major_version (process_version env)) = false) ->
  (forall h', confirm_oracle env h' = true) ->
  exists h',
    run env h = (Ret tt, h')
    /\ (opt_vscode env && opt_claude env = false ->
        hd_error h'
        = Some (ConsoleLog ([10] ++ chalk (chalk_colors env) [magenta]
                  (js "💡 Tip: Run `mcp-ide metrics` to see your performance gains!")))).
Proof.
  intros Hstart Hyes.
  assert (Hinstall : forall config h0, exists h1, install config env h0 = (Ret tt, h1)).
  { intros config h0.
    destruct (install_loop_completes env (steps_contained config)
                (ConsoleLog (install_headline (chalk_colors env)) :: h0))
      as [h1 Hloop]; [intros events; apply Hyes|].
    exists h1. unfold install, bind at 1, with_env, console_log, emit. exact Hloop. }
  apply run_modes; intros Hmode.
  - destruct (Hinstall quick_selection
                (ConsoleLog (chalk (chalk_colors env) [cyan] banner) :: ConsoleClear :: h))
      as [h1 H1].
    exists h1. split; [exact H1|]. intros Hno. rewrite Hmode in Hno. discriminate Hno.
  - destruct Hstart as [Hquick|Hversion]; [rewrite Hmode in Hquick; discriminate Hquick|].
    set (h0 := ConsoleLog _ :: ConsoleClear :: h).
    destruct (detectEnvironment_outcome env h0) as [detected [tail_events [_ [_ [Hfst _]]]]].
    rewrite Hversion in Hfst.
    destruct (detectEnvironment env h0) as [[ides|e|code] h1] eqn:E; cbn [fst] in Hfst;
      try discriminate Hfst.
    apply (@interactive_after_detection env h0 h1 ides
             (fun r => exists h', r = (Ret tt, h')
                /\ (opt_vscode env && opt_claude env = false ->
                    hd_error h'
                    = Some (ConsoleLog ([10] ++ chalk (chalk_colors env) [magenta]
                        (js "💡 Tip: Run `mcp-ide metrics` to see your performance gains!")))))
             E).
    + intros h2 Hexit.
      destruct (Hinstall (questionnaire_oracle env h1) (Questionnaire :: h1)) as [h3 H3].
      rewrite H3 in Hexit. discriminate Hexit.
    + intros h2 verified shown _. eexists. split; [reflexivity|]. intros _. reflexivity.
Qed.

Lemma run_completes_with_consent_witness :
  opt_vscode (calm "v20.11.0" false) && opt_claude (calm "v20.11.0" false) = false
  /\ lt18 (major_version (process_version (calm "v20.11.0" false))) = false
  /\ fst (run (calm "v20.11.0" false) []) = Ret tt
  /\ hd_error (snd (run (calm "v20.11.0" false) []))
     = Some (ConsoleLog ([10] ++ chalk false [magenta]
               (js "💡 Tip: Run `mcp-ide metrics` to see your performance gains!"))).
Proof.
  split; [reflexivity|]. split; [reflexivity|].
  destruct (@run_completes_with_consent (calm "v20.11.0" false) []
              (or_intror eq_refl) (fun _ => eq_refl)) as [h' [Hrun Htip]].
  rewrite Hrun. split; [reflexivity|]. exact (Htip eq_refl).
Defined.

(* ------------------------------------------------------------------ *)
(** ** The commands of [mcp-ide] *)

(** What each check adds to the history. *)
Lemma check_events (env : Env) (h : history) :
  (exists r, checkNode env h = (Ret r, h))
  /\ (exists r, checkVSCode env h = (Ret r, [ExecSync (js "code --version")] ++ h))
  /\ (exists r, checkClaudeExtension env h
                = (Ret r, [ExecSync (js "code --list-extensions")] ++ h))
  /\ (exists r local,
        checkMCPIntelligence env h
        = (Ret r, local ++ [ExecSync (js "npm list -g @mcp-intelligence/core")] ++ h)
        /\ (((exists out, exec_oracle env h (js "npm list -g @mcp-intelligence/core")
                           = inl out)
             /\ local = [])
            \/ ((exists msg, exec_oracle env h (js "npm list -g @mcp-intelligence/core")
                              = inr msg)
                /\ local = [ExecSync (js "npm list @mcp-intelligence/core")])))
  /\ (exists r events,
        checkAPIKeys env h = (Ret r, events ++ h)
        /\ forallb (fun e => match e with FsAccess _ | FsReadFile _ => true | _ => false end)
             events = true)
  /\ (exists r, checkNetwork env h = (Ret r, h)).
Proof.
  split; [eexists; reflexivity|]. split; [|split; [|split; [|split]]].
  - unfold checkVSCode, try_catch, bind, execSync, ret. split_oracles; eexists; reflexivity.
  - unfold checkClaudeExtension, try_catch, bind, execSync, ret.
    split_oracles; eexists; reflexivity.
  - unfold checkMCPIntelligence, try_catch, bind, execSync, ret.
    destruct (exec_oracle env h _) as [out|msg].
    + eexists. exists (@nil event). split; [reflexivity|].
      left. split; [exists out|]; reflexivity.
    + destruct (exec_oracle env _ _); eexists; eexists [_];
        (split; [reflexivity|]); right; (split; [exists msg|]); reflexivity.
  - unfold checkAPIKeys, try_catch, with_env, bind, fs_access, fs_call, read_json,
      get_member, ret.
    split_oracles; eexists;
      first [ eexists [_]; split; reflexivity | eexists [_; _]; split; reflexivity ].
  - eexists. reflexivity.
Qed.

Lemma commands_app (a b : list event) : commands (a ++ b) = commands b ++ commands a.
Proof.
  induction a as [|e a IH]; cbn [app commands].
  - now rewrite app_nil_r.
  - destruct e; rewrite ?IH, ?app_assoc; reflexivity.
Qed.

(** X15: the health check only looks, and always returns its verdict.
    It runs [code --version] and [code --list-extensions], then
    [npm list -g]; [npm list] follows exactly when that global query, as
    the machine answered it at that moment, failed, and is not run when
    it succeeded; no other command is run.  No file is written and
    nothing is asked. *)
Theorem healthCheck_read_only (env : Env) (h : history) :
  exists overall before local after,
    healthCheck env h
    = (Ret overall,
       after ++ local ++ [ExecSync (js "npm list -g @mcp-intelligence/core")] ++ before ++ h)
    /\ commands before = [js "code --version"; js "code --list-extensions"]
    /\ commands after = []
    /\ (((exists out, exec_oracle env (before ++ h) (js "npm list -g @mcp-intelligence/core")
                       = inl out)
         /\ local = [])
        \/ ((exists msg, exec_oracle env (before ++ h) (js "npm list -g @mcp-intelligence/core")
                          = inr msg)
            /\ local = [ExecSync (js "npm list @mcp-intelligence/core")]))
    /\ count_events is_write
         (after ++ local ++ [ExecSync (js "npm list -g @mcp-intelligence/core")] ++ before)
       = 0%nat
    /\ count_events prompt_event
         (after ++ local ++ [ExecSync (js "npm list -g @mcp-intelligence/core")] ++ before)
       = 0%nat.
Proof.
  destruct (healthCheck_over_aggregates env h checks_return_quietly)
    as [rs [h' [Hran [_ [Hrun _]]]]].
  unfold checks in Hran.
  inversion Hran as [|? ? ? r1 h1 ? ? E1 Hran2]; subst; clear Hran. cbn [check check_name] in *.
  inversion Hran2 as [|? ? ? r2 h2 ? ? E2 Hran3]; subst; clear Hran2. cbn [check check_name] in *.
  inversion Hran3 as [|? ? ? r3 h3 ? ? E3 Hran4]; subst; clear Hran3. cbn [check check_name] in *.
  inversion Hran4 as [|? ? ? r4 h4 ? ? E4 Hran5]; subst; clear Hran4. cbn [check check_name] in *.
  inversion Hran5 as [|? ? ? r5 h5 ? ? E5 Hran6]; subst; clear Hran5. cbn [check check_name] in *.
  inversion Hran6 as [|? ? ? r6 h6 ? ? E6 Hran7]; subst; clear Hran6. cbn [check check_name] in *.
  inversion Hran7; subst; clear Hran7.
  match type of E1 with checkNode env ?x = _ =>
    pose proof (check_events env x) as Hev; destruct Hev as [[q1 Q1] _] end.
  rewrite Q1 in E1.
  pose proof (f_equal fst E1) as Hr1; pose proof (f_equal snd E1) as Hh1;
    cbn [fst snd] in Hr1, Hh1; injection Hr1 as Hr1; subst r1 h1; clear E1 Q1.
  match type of E2 with checkVSCode env ?x = _ =>
    pose proof (check_events env x) as Hev; destruct Hev as [_ [[q2 Q2] _]] end.
  rewrite Q2 in E2.
  pose proof (f_equal fst E2) as Hr2; pose proof (f_equal snd E2) as Hh2;
    cbn [fst snd] in Hr2, Hh2; injection Hr2 as Hr2; subst r2 h2; clear E2 Q2.
  match type of E3 with checkClaudeExtension env ?x = _ =>
    pose proof (check_events env x) as Hev; destruct Hev as [_ [_ [[q3 Q3] _]]] end.
  rewrite Q3 in E3.
  pose proof (f_equal fst E3) as Hr3; pose proof (f_equal snd E3) as Hh3;
    cbn [fst snd] in Hr3, Hh3; injection Hr3 as Hr3; subst r3 h3; clear E3 Q3.
  match type of E4 with checkMCPIntelligence env ?x = _ =>
    pose proof (check_events env x) as Hev; destruct Hev as [_ [_ [_ [[q4 [local [Q4 Hlocal]]] _]]]] end.
  rewrite Q4 in E4.
  pose proof (f_equal fst E4) as Hr4; pose proof (f_equal snd E4) as Hh4;
    cbn [fst snd] in Hr4, Hh4; injection Hr4 as Hr4; subst r4 h4; clear E4 Q4.
  match type of E5 with checkAPIKeys env ?x = _ =>
    pose proof (check_events env x) as Hev; destruct Hev as [_ [_ [_ [_ [[q5 [reads [Q5 Hreads]]] _]]]]] end.
  rewrite Q5 in E5.
  pose proof (f_equal fst E5) as Hr5; pose proof (f_equal snd E5) as Hh5;
    cbn [fst snd] in Hr5, Hh5; injection Hr5 as Hr5; subst r5 h5; clear E5 Q5.
  match type of E6 with checkNetwork env ?x = _ =>
    pose proof (check_events env x) as Hev; destruct Hev as [_ [_ [_ [_ [_ [q6 Q6]]]]]] end.
  rewrite Q6 in E6.
  pose proof (f_equal fst E6) as Hr6; pose proof (f_equal snd E6) as Hh6;
    cbn [fst snd] in Hr6, Hh6; injection Hr6 as Hr6; subst r6 h6; clear E6 Q6.
  assert (Hr : commands reads = [] /\ count_events is_write reads = 0%nat
               /\ count_events prompt_event reads = 0%nat).
  { clear - Hreads. induction reads as [|e l IH]; [auto|].
    cbn [forallb] in Hreads. apply andb_prop in Hreads as [He Hl].
    destruct (IH Hl) as [A [B C]]. unfold count_events in *.
    destruct e; try discriminate He; cbn; auto. }
  destruct Hr as [Rc [Rw Rp]].
  unfold healthCheck. rewrite Hrun.
  eexists. eexists [_; _; _; _; _; _; _; _; _]. exists local.
  eexists (_ :: _ :: _ :: _ :: reads ++ [_]).
  split; [cbn [app]; rewrite <- !app_assoc; cbn [app]; reflexivity|].
  split; [reflexivity|].
  split; [cbn [commands]; rewrite commands_app, Rc; reflexivity|].
  split; [exact Hlocal|].
  assert (Hw : count_events is_write local = 0%nat /\ count_events prompt_event local = 0%nat)
    by (destruct Hlocal as [[_ ->] | [_ ->]]; split; reflexivity).
  destruct Hw as [Lw Lp].
  unfold count_events in *.
  cbn [app filter is_write prompt_event].
  rewrite !filter_app, !length_app. cbn [filter is_write prompt_event length].
  rewrite Rw, Rp, Lw, Lp. split; reflexivity.
Qed.

(** X16: the [health-check] command ends the same way whatever the
    verdict: it returns, so the process exits with code 0 also when the
    overall health is false. *)
Theorem health_check_command_ignores_verdict (env : Env) (h : history) :
  exists overall h',
    healthCheck env h = (Ret overall, h')
    /\ health_check_command env h = (Ret tt, h')
    /\ fst (healthCheck no_editor []) = Ret false
    /\ fst (health_check_command no_editor []) = Ret tt.
Proof.
  destruct (healthCheck_over_aggregates env h checks_return_quietly)
    as [rs [h' [_ [_ [Hrun _]]]]].
  change (healthCheck_over checks) with healthCheck in Hrun.
  eexists. eexists. split; [exact Hrun|].
  split; [unfold health_check_command, bind; rewrite Hrun; reflexivity|].
  split; vm_compute; reflexivity.
Qed.

Lemma trail_cons (a : action) (script : list action) (h : history) :
  trail (a :: script) ++ h = trail script ++ event_of a :: h.
Proof. unfold trail. cbn [map rev]. now rewrite <- app_assoc. Qed.

Lemma trail_app (a b : list action) : trail (a ++ b) = trail b ++ trail a.
Proof. unfold trail. now rewrite map_app, rev_app_distr. Qed.

(** A script returns exactly when all its commands succeed, and then it
    has gone through all of it. *)
Lemma perform_succeeds (env : Env) (script : list action) (h : history) :
  all_succeed env script h <-> perform env script h = (Ret tt, trail script ++ h).
Proof.
  revert h. induction script as [|[line|command] script IH]; intros h.
  - split; reflexivity || auto.
  - cbn [all_succeed perform]. rewrite trail_cons. apply IH.
  - cbn [all_succeed perform]. rewrite trail_cons. cbn [event_of].
    destruct (exec_oracle env h command) as [out|msg].
    + rewrite <- IH. split; [tauto|]. intros H. split; [exists out; reflexivity|exact H].
    + split; [intros [[out H] _]; discriminate H | discriminate].
Qed.

Lemma perform_app (env : Env) (a b : list action) (h : history) :
  perform env a h = (Ret tt, trail a ++ h) ->
  perform env (a ++ b) h = perform env b (trail a ++ h).
Proof.
  revert h. induction a as [|[line|command] a IH]; intros h.
  - reflexivity.
  - cbn [app perform]. rewrite trail_cons. apply IH.
  - cbn [app perform]. rewrite trail_cons. cbn [event_of].
    destruct (exec_oracle env h command); [apply IH | discriminate].
Qed.

(** A script stops at its first command that fails, with its error. *)
Lemma perform_stops (env : Env) (script before after : list action) (h : history)
    (command msg : jsstring) :
  script = before ++ Run command :: after ->
  all_succeed env before h ->
  exec_oracle env (trail before ++ h) command = inr msg ->
  perform env script h = (Throw msg, ExecSync command :: trail before ++ h).
Proof.
  intros -> Hbefore Hfails. apply perform_succeeds in Hbefore.
  rewrite (@perform_app env before (Run command :: after) h Hbefore).
  cbn [perform]. now rewrite Hfails.
Qed.

Lemma fix_method_performs (component : jsstring) (env : Env) (h : history) :
  inherited component = false ->
  fix_method component env h = perform env (fix_script (chalk_colors env) component) h.
Proof.
  intros Hi. unfold fix_method, fixFn, with_env, fix_script. rewrite Hi.
  destruct (str_eqb component (js "extensions")).
  { unfold fix_extensions, bind, console_log, emit, execSync, ret.
    cbn [app perform]. split_oracles; reflexivity. }
  destruct (str_eqb component (js "mcp")).
  { unfold fix_mcp, bind, console_log, emit, execSync, ret.
    cbn [app perform]. split_oracles; reflexivity. }
  assert (Hall : (if str_eqb component (js "all") then fix_all else fix_all) = fix_all)
    by (destruct (str_eqb component (js "all")); reflexivity).
  rewrite Hall.
  unfold fix_all, fix_extensions, fix_mcp, bind, console_log, emit, execSync, ret.
  cbn [app perform]. split_oracles; reflexivity.
Qed.

(** X17: [fix] goes through the script of its component -- the two
    extension installs for [extensions], the package install for [mcp],
    all three in that order for [all] and for every other name that no
    object inherits -- between its two banners.  It returns exactly when
    every command succeeded, as the machine answered at the moment the
    command was run; the first command that fails ends it with that
    command's error, and nothing after it is run or printed. *)
Theorem fix_runs_its_plan (component : jsstring) (env : Env) (h : history) :
  inherited component = false ->
  let script := fix_script (chalk_colors env) component in
  fix_method component env h = perform env script h
  /\ (all_succeed env script h <-> fix_method component env h = (Ret tt, trail script ++ h))
  /\ (fst (fix_method component env h) = Ret tt -> all_succeed env script h)
  /\ (forall before command after msg,
        script = before ++ Run command :: after ->
        all_succeed env before h ->
        exec_oracle env (trail before ++ h) command = inr msg ->
        fix_method component env h = (Throw msg, ExecSync command :: trail before ++ h)).
Proof.
  intros Hi script. rewrite (@fix_method_performs component env h Hi). fold script.
  split; [reflexivity|]. split; [apply perform_succeeds|]. split.
  - clearbody script. clear Hi. revert h.
    induction script as [|[line|command] script IH]; intros h; cbn [perform all_succeed].
    + auto.
    + apply IH.
    + destruct (exec_oracle env h command) as [out|msg]; [|discriminate].
      intros H. split; [exists out; reflexivity | apply IH, H].
  - intros before command after msg. apply perform_stops.
Qed.

Lemma fix_runs_its_plan_witness :
  inherited (js "all") = false
  /\ fix_command None (npm_down true) []
     = (Throw (js "Command failed: npm install"),
        [ ExecSync (js "npm install -g @mcp-intelligence/core");
          ConsoleLog (js "Installing MCP Intelligence...");
          ExecSync (js "code --install-extension mcp.mcp-intelligence");
          ExecSync (js "code --install-extension Anthropic.claude-vscode");
          ConsoleLog (js "Installing missing extensions...");
          ConsoleLog (js "
🔧 Fixing issues...
") ]).
Proof.
  split; [reflexivity|].
  destruct (@fix_runs_its_plan (js "all") (npm_down true) [] eq_refl) as [Hruns _].
  unfold fix_command. rewrite Hruns. vm_compute. reflexivity.
Defined.

(* ------------------------------------------------------------------ *)
(** ** The report and the resolver, continued *)

(** X18: the rows of the report do not reach the right edge of its frame:
    the frame is 58 code units wide (its title line 57), a row whose
    status cell fits is 53, of which 43 show when chalk colours. *)
Theorem report_rows_short_of_frame (colors : bool) (c : check_descriptor)
    (r : check_result) :
  In c checks ->
  plain (message r) = true ->
  (length (status_text colors r) <= 30)%nat ->
  map visible_length [report_top; report_title; report_rule; report_bottom]
  = [58; 57; 58; 58]%nat
  /\ (visible_length (report_row colors (max_name_length checks) (check_name c) r)
      + (if colors then 15 else 5))%nat
     = visible_length report_top.
Proof.
  intros Hin Hp Hfit.
  destruct (@report_row_width colors c r Hin Hp Hfit) as [_ Hv].
  split; [vm_compute; reflexivity|].
  rewrite Hv. destruct colors; vm_compute; reflexivity.
Qed.

Lemma report_rows_short_of_frame_witness :
  In {| check_name := js "Network"; check := checkNetwork |} checks
  /\ (length (status_text false {| success := VBool true; message := js "Connected" |})
      <= 30)%nat
  /\ (visible_length
        (report_row false (max_name_length checks) (js "Network")
           {| success := VBool true; message := js "Connected" |}) + 5)%nat
     = visible_length report_top.
Proof.
  assert (H1 : In {| check_name := js "Network"; check := checkNetwork |} checks)
    by (do 5 right; left; reflexivity).
  assert (F1 : (length (status_text false {| success := VBool true;
                                             message := js "Connected" |}) <= 30)%nat)
    by (vm_compute; lia).
  split; [exact H1|]. split; [exact F1|].
  exact (proj2 (@report_rows_short_of_frame false _
                  {| success := VBool true; message := js "Connected" |} H1 eq_refl F1)).
Defined.

Lemma getMCPServers_by_case (env : Env) (useCase : jsstring) :
  inherited useCase = false ->
  getMCPServers env useCase
  = if str_eqb useCase (js "data") then data_servers
    else if str_eqb useCase (js "enterprise") then enterprise_servers env
    else web_servers.
Proof.
  intros Hi.
  destruct (str_eqb useCase (js "data")) eqn:Ed;
    [apply str_eqb_eq in Ed; subst; reflexivity|].
  destruct (str_eqb useCase (js "enterprise")) eqn:Ee;
    [apply str_eqb_eq in Ee; subst; reflexivity|].
  destruct (str_eqb useCase (js "web")) eqn:Ew;
    [apply str_eqb_eq in Ew; subst; reflexivity|].
  apply getMCPServers_fallback; try exact Hi;
    intros ->; rewrite str_eqb_refl in *; discriminate.
Qed.

(** X19: the three presets and the fallback of [getMCPServers]: web, data
    and enterprise give their own list of three servers, and every other
    use case that names nothing an object inherits gives the web list. *)
Theorem getMCPServers_presets (env : Env) (useCase : jsstring) :
  getMCPServers env (js "web") = web_servers
  /\ getMCPServers env (js "data") = data_servers
  /\ getMCPServers env (js "enterprise") = enterprise_servers env
  /\ (inherited useCase = false ->
      getMCPServers env useCase
      = if str_eqb useCase (js "data") then data_servers
        else if str_eqb useCase (js "enterprise") then enterprise_servers env
        else web_servers)
  /\ (inherited useCase = false ->
      exists a b c, getMCPServers env useCase = VArr [VObj a; VObj b; VObj c]).
Proof.
  split; [reflexivity|]. split; [reflexivity|]. split; [reflexivity|].
  split; [apply getMCPServers_by_case|].
  intros Hi. rewrite (@getMCPServers_by_case env _ Hi).
  destruct (str_eqb useCase (js "data")); [do 3 eexists; reflexivity|].
  destruct (str_eqb useCase (js "enterprise")); do 3 eexists; reflexivity.
Qed.

Lemma admitted_useCase (u : jsstring) :
  existsb (str_eqb u) useCase_choices = true ->
  inherited u = false.
Proof.
  unfold useCase_choices. cbn [map existsb]. intros H.
  repeat (apply orb_prop in H as [H|H];
          [apply str_eqb_eq in H; subst; vm_compute; reflexivity|]).
  discriminate H.
Qed.

(** X20: a selection made in the questionnaire is safe for the steps that
    use it: its use case names nothing inherited, so [getMCPServers]
    returns one of its presets; and a key that comes with it was asked
    for, so it starts with [sk-ant-] and the store [setupAPIKeys] writes
    holds it under [claude] -- the [null] alternative is for selections
    the questionnaire cannot produce. *)
Theorem questionnaire_selection_is_safe (config : Config) (env : Env) :
  admitted config = true ->
  inherited (useCase config) = false
  /\ In (getMCPServers env (useCase config))
        [web_servers; data_servers; enterprise_servers env]
  /\ forall c key,
       apiKey config = Some (c :: key) ->
       starts_with (c :: key) (js "sk-ant-") = true
       /\ credentials_document (ai config) (c :: key)
          = VObj [(js "claude", VStr (c :: key)); (js "github", VNull)].
Proof.
  unfold admitted. intros H.
  apply andb_prop in H as [H Hkey]. apply andb_prop in H as [H Hglobal].
  apply andb_prop in H as [H Huse]. apply andb_prop in H as [Hide Hai].
  pose proof (admitted_useCase _ Huse) as Hi.
  split; [exact Hi|]. split.
  - rewrite (@getMCPServers_by_case env _ Hi).
    destruct (str_eqb (useCase config) (js "data")); [right; left; reflexivity|].
    destruct (str_eqb (useCase config) (js "enterprise")); cbn [In]; auto.
  - intros c key Hsome. rewrite Hsome in Hkey.
    apply andb_prop in Hkey as [Hwhen Hvalid].
    unfold apiKey_validate in Hvalid.
    destruct (starts_with (c :: key) (js "sk-ant-")); [|discriminate Hvalid].
    split; [reflexivity|].
    unfold credentials_document. unfold apiKey_when in Hwhen. rewrite Hwhen. reflexivity.
Qed.

Lemma questionnaire_selection_is_safe_witness :
  admitted keyed_selection = true
  /\ inherited (useCase keyed_selection) = false
  /\ starts_with (js "sk-ant-0123") (js "sk-ant-") = true.
Proof.
  split; [reflexivity|].
  destruct (@questionnaire_selection_is_safe keyed_selection (calm "v20.11.0" false) eq_refl)
    as [Hi [_ Hkey]].
  split; [exact Hi|].
  exact (proj1 (Hkey 115 (tl (js "sk-ant-0123")) eq_refl)).
Defined.

(* ------------------------------------------------------------------ *)
(** ** The commands of the pipeline *)

Ltac planned :=
  cbv beta iota;
  first [ exists (@nil event); split; reflexivity
        | eexists [_]; split; reflexivity
        | eexists [_; _]; split; reflexivity
        | eexists [_; _; _]; split; reflexivity
        | eexists [_; _; _; _]; split; reflexivity
        | eexists [_; _; _; _; _]; split; reflexivity ].

Lemma steps_follow_plan (config : Config) :
  Forall2 (fun s plan => runs_exactly plan (fn s)) (steps config) (install_plan config).
Proof.
  unfold steps, install_plan.
  repeat apply Forall2_cons; [..|apply Forall2_nil]; cbn [fn]; intros env h.
  - unfold installMCPIntelligence, bind, execSync, ret.
    destruct (truthy_flag (installGlobal config)); split_oracles; planned.
  - unfold installIDEExtensions.
    destruct (str_eqb (ide config) (js "vscode")).
    + destruct (str_eqb (ai config) (js "claude") || str_eqb (ai config) (js "both"));
        destruct (str_eqb (ai config) (js "copilot") || str_eqb (ai config) (js "both"));
        cbn [app install_extensions map];
        unfold try_catch, bind, execSync, ret; split_oracles; planned.
    + destruct (str_eqb (ide config) (js "jetbrains")).
      * unfold with_env, bind, console_log, emit. planned.
      * destruct (str_eqb (ide config) (js "cursor")).
        -- unfold with_env, bind, console_log, emit. planned.
        -- planned.
  - unfold configureSettings, with_env, bind, fs_mkdir, fs_writeFile, fs_call.
    split_oracles; planned.
  - unfold setupAPIKeys, with_env.
    destruct (negb (truthy_text (apiKey config))).
    + unfold console_log, emit. planned.
    + unfold bind, fs_mkdir, fs_writeFile, fs_chmod, fs_call. split_oracles; planned.
  - unfold createSampleProject.
    destruct (js_or _ _); try planned.
    unfold fs_writeFile, fs_call. split_oracles; planned.
Qed.

Lemma install_loop_commands (l : list step) (plan : list (list jsstring)) (env : Env) :
  Forall (fun s => contained (fn s)) l ->
  Forall2 (fun s cmds => runs_exactly cmds (fn s)) l plan ->
  forall h, exists events reached,
    snd (install_loop l env h) = events ++ h
    /\ (reached <= length l)%nat
    /\ (l <> [] -> 1 <= reached)%nat
    /\ commands events = concat (firstn reached plan)
    /\ (fst (install_loop l env h) = Ret tt -> reached = length l).
Proof.
  intros Hc Hp. revert Hc.
  induction Hp as [|s cmds l plan Hs _ IH]; intros Hc h.
  - exists [], 0%nat. repeat split; auto. intros H. now elim H.
  - inversion Hc as [|? ? Hcs Hcl]; subst.
    destruct (run_step_events s env h Hcs) as [body [Hact [Hfn Hrun]]].
    destruct (Hs env (SpinnerStart (step_name s) :: h)) as [events1 [Hsnd1 Hcmd1]].
    assert (Hbody : commands body = cmds).
    { rewrite Hsnd1 in Hfn.
      change (events1 ++ SpinnerStart (step_name s) :: h)
        with (events1 ++ [SpinnerStart (step_name s)] ++ h) in Hfn.
      apply app_inv_tail in Hfn. now subst. }
    cbn [install_loop]. unfold bind.
    destruct Hrun as [Hrun | [e [Hrun | Hrun]]]; rewrite Hrun.
    + destruct (IH Hcl ([SpinnerSucceed (step_name s)] ++ body
                          ++ [SpinnerStart (step_name s)] ++ h))
        as [events [reached [Hsnd [Hle [_ [Hcmds Hret]]]]]].
      exists (events ++ [SpinnerSucceed (step_name s)] ++ body ++ [SpinnerStart (step_name s)]),
        (S reached).
      split; [rewrite Hsnd, <- !app_assoc; reflexivity|].
      split; [cbn [length]; lia|]. split; [intros _; lia|].
      split.
      * rewrite !commands_app, Hbody, Hcmds. cbn [commands firstn concat app].
        now rewrite app_nil_r.
      * intros Hr. cbn [length]. f_equal. apply Hret. exact Hr.
    + destruct (IH Hcl (failure_events env s e ++ body ++ [SpinnerStart (step_name s)] ++ h))
        as [events [reached [Hsnd [Hle [_ [Hcmds Hret]]]]]].
      exists (events ++ failure_events env s e ++ body ++ [SpinnerStart (step_name s)]),
        (S reached).
      split; [rewrite Hsnd, <- !app_assoc; reflexivity|].
      split; [cbn [length]; lia|]. split; [intros _; lia|].
      split.
      * rewrite !commands_app, Hbody, Hcmds. unfold failure_events.
        cbn [commands firstn concat app]. now rewrite app_nil_r.
      * intros Hr. cbn [length]. f_equal. apply Hret. exact Hr.
    + exists (failure_events env s e ++ body ++ [SpinnerStart (step_name s)]), 1%nat.
      split; [cbn [snd]; rewrite <- !app_assoc; reflexivity|].
      split; [cbn [length]; lia|]. split; [intros _; lia|].
      split.
      * rewrite !commands_app, Hbody. unfold failure_events.
        cbn [commands firstn concat app]. now rewrite !app_nil_r.
      * cbn [fst]. discriminate.
Qed.

(** X11: the only commands [install] runs are those of its plan, in the
    order of the steps and whether or not they succeed: first the package
    install -- global exactly when [installGlobal] is set, so local in
    quick mode -- then, for VS Code, the extension installs; the three
    writing steps run none.  A run that returns has run the whole plan. *)
Theorem install_runs_its_plan (config : Config) (env : Env) (h : history) :
  exists events reached rest,
    snd (install config env h)
    = events ++ [ConsoleLog (install_headline (chalk_colors env))] ++ h
    /\ (1 <= reached <= 5)%nat
    /\ commands events = concat (firstn reached (install_plan config))
    /\ commands events
       = (if truthy_flag (installGlobal config)
          then js "npm install -g @mcp-intelligence/core @mcp-intelligence/cli"
          else js "npm install @mcp-intelligence/core @mcp-intelligence/cli") :: rest
    /\ (fst (install config env h) = Ret tt ->
        commands events = concat (install_plan config)).
Proof.
  destruct (install_loop_commands env (steps_contained config) (steps_follow_plan config)
              (ConsoleLog (install_headline (chalk_colors env)) :: h))
    as [events [reached [Hsnd [Hle [Hge [Hcmds Hret]]]]]].
  assert (Hone : (1 <= reached)%nat) by (apply Hge; discriminate).
  change (length (steps config)) with 5%nat in *.
  exists events, reached.
  destruct reached as [|n]; [lia|].
  eexists.
  unfold install, bind at 1 2, with_env, console_log, emit. cbn [app].
  split; [exact Hsnd|]. split; [lia|]. split; [exact Hcmds|]. split.
  - rewrite Hcmds. unfold install_plan at 1. cbn [firstn concat app]. reflexivity.
  - intros Hr. rewrite Hcmds, (Hret Hr). reflexivity.
Qed.

Lemma prompts_split (events : list event) :
  count_events prompt_event events
  = (count_events is_confirm events + count_events is_questionnaire events)%nat.
Proof.
  unfold count_events. induction events as [|e l IH]; [reflexivity|].
  destruct e; cbn [filter prompt_event is_confirm is_questionnaire length]; lia.
Qed.

(** The first step of the quick installation, by what the machine and
    the operator answer. *)
Lemma quick_first_step (env : Env) (h : history) :
  run_step {| step_name := js "Install MCP Intelligence";
              fn := installMCPIntelligence quick_selection |} env h
  = match exec_oracle env (SpinnerStart (js "Install MCP Intelligence") :: h)
            (js "npm install @mcp-intelligence/core @mcp-intelligence/cli") with
    | inl _ =>
      (Ret tt,
       SpinnerSucceed (js "Install MCP Intelligence")
         :: ExecSync (js "npm install @mcp-intelligence/core @mcp-intelligence/cli")
         :: SpinnerStart (js "Install MCP Intelligence") :: h)
    | inr msg =>
      let asked :=
        ConsoleError (chalk (chalk_colors env) [red] (js "  Error: " ++ msg))
          :: SpinnerFail (js "Install MCP Intelligence")
          :: ExecSync (js "npm install @mcp-intelligence/core @mcp-intelligence/cli")
          :: SpinnerStart (js "Install MCP Intelligence") :: h in
      (if confirm_oracle env asked then Ret tt else Exit 1%Z,
       Confirm (js "Continue anyway?") :: asked)
    end.
Proof.
  unfold run_step, installMCPIntelligence, bind, spinner_start, emit, try_catch, execSync,
    spinner_succeed, spinner_fail, with_env, console_error, emit, confirm, process_exit, ret.
  cbn [step_name fn quick_selection installGlobal truthy_flag].
  destruct (exec_oracle env _ _); [reflexivity|].
  cbv zeta. destruct (confirm_oracle env _); reflexivity.
Qed.

(** The four later steps of the quick installation run the two extension
    installs and no other command, and ask no questionnaire. *)
Lemma quick_later_steps (env : Env) (h : history) :
  exists events,
    snd (install_loop (tl (steps quick_selection)) env h) = events ++ h
    /\ count_events is_questionnaire events = 0%nat
    /\ commands events
       = [js "code --install-extension mcp.mcp-intelligence";
          js "code --install-extension Anthropic.claude-vscode"].
Proof.
  assert (Hc' : Forall (fun s => contained (fn s)) (tl (steps quick_selection)))
    by exact (Forall_inv_tail (steps_contained quick_selection)).
  assert (Hp' : Forall2 (fun s plan => runs_exactly plan (fn s))
                  (tl (steps quick_selection)) (tl (install_plan quick_selection)))
    by exact (proj2 (proj1 (Forall2_cons_iff _ _ _ _ _)
                       (steps_follow_plan quick_selection))).
  destruct (install_loop_commands env Hc' Hp' h)
    as [events [reached [Hsnd [Hle [Hge [Hcmds _]]]]]].
  destruct (install_loop_trace env Hc' h)
    as [events' [reached' [Hsnd' [_ [_ [Hcf [Hpf _]]]]]]].
  assert (events' = events).
  { rewrite Hsnd in Hsnd'. apply app_inv_tail in Hsnd'. auto. }
  subst events'.
  assert (Hone : (1 <= reached)%nat) by (apply Hge; discriminate).
  change (length (tl (steps quick_selection))) with 4%nat in Hle.
  exists events. split; [exact Hsnd|]. split.
  - rewrite prompts_split in Hpf. lia.
  - rewrite Hcmds.
    destruct reached as [|[|[|[|[|n]]]]]; try lia; vm_compute; reflexivity.
Qed.

(** X14: in quick mode the wizard asks no questionnaire and runs neither
    the detection nor the verification.  Its first command is the local
    package install.  When that install fails and the operator declines
    to go on, the run ends there with exit code 1 and no other command
    was run; in every other case -- the install succeeded, or it failed
    and the operator went on -- the installs of the MCP and Claude
    extensions follow, and no command after them. *)
Theorem quick_mode_installs_locally (env : Env) (h : history) :
  opt_vscode env && opt_claude env = true ->
  let npm := js "npm install @mcp-intelligence/core @mcp-intelligence/cli" in
  let extensions :=
    [js "code --install-extension mcp.mcp-intelligence";
     js "code --install-extension Anthropic.claude-vscode"] in
  let before :=
    SpinnerStart (js "Install MCP Intelligence")
      :: ConsoleLog (install_headline (chalk_colors env))
      :: ConsoleLog (chalk (chalk_colors env) [cyan] banner)
      :: ConsoleClear :: h in
  let asked msg :=
    ConsoleError (chalk (chalk_colors env) [red] (js "  Error: " ++ msg))
      :: SpinnerFail (js "Install MCP Intelligence")
      :: ExecSync npm :: before in
  exists events,
    snd (run env h) = events ++ h
    /\ count_events is_questionnaire events = 0%nat
    /\ (forall msg,
          exec_oracle env before npm = inr msg ->
          confirm_oracle env (asked msg) = false ->
          run env h = (Exit 1%Z, Confirm (js "Continue anyway?") :: asked msg)
          /\ commands events = [npm])
    /\ (forall msg,
          exec_oracle env before npm = inr msg ->
          confirm_oracle env (asked msg) = true ->
          commands events = npm :: extensions)
    /\ (forall out,
          exec_oracle env before npm = inl out ->
          commands events = npm :: extensions).
Proof.
  intros Hmode. cbv zeta.
  pattern (run env h). apply run_modes; intros Hm; [|rewrite Hmode in Hm; discriminate Hm].
  assert (Hinstall :
            forall h0,
              install quick_selection env h0
              = match run_step {| step_name := js "Install MCP Intelligence";
                                  fn := installMCPIntelligence quick_selection |} env
                        (ConsoleLog (install_headline (chalk_colors env)) :: h0) with
                | (Ret _, h') => install_loop (tl (steps quick_selection)) env h'
                | (Throw e, h') => (Throw e, h')
                | (Exit code, h') => (Exit code, h')
                end) by reflexivity.
  rewrite Hinstall, quick_first_step.
  destruct (exec_oracle env _ _) as [out|msg] eqn:Enpm.
  - match goal with
    | |- context [install_loop _ env ?x] =>
      destruct (quick_later_steps env x) as [events [Hsnd [Hq Hcmds]]]
    end.
    cbv beta iota. eexists (events ++ [_; _; _; _; _; _]).
    split; [rewrite Hsnd, <- app_assoc; reflexivity|].
    split; [rewrite count_events_app, Hq; reflexivity|].
    rewrite commands_app, Hcmds.
    split; [discriminate|]. split; [discriminate|]. intros _ _. reflexivity.
  - cbv zeta. destruct (confirm_oracle env _) eqn:Eanswer.
    + match goal with
      | |- context [install_loop _ env ?x] =>
        destruct (quick_later_steps env x) as [events [Hsnd [Hq Hcmds]]]
      end.
      cbv beta iota. eexists (events ++ [_; _; _; _; _; _; _; _]).
      split; [rewrite Hsnd, <- app_assoc; reflexivity|].
      split; [rewrite count_events_app, Hq; reflexivity|].
      rewrite commands_app, Hcmds.
      split; [|split; [|discriminate]].
      * intros msg0 Hmsg Hno. injection Hmsg as <-. rewrite Eanswer in Hno. discriminate Hno.
      * intros _ _ _. reflexivity.
    + eexists [_; _; _; _; _; _; _; _].
      split; [reflexivity|]. split; [reflexivity|].
      split; [|split; [|discriminate]].
      * intros msg0 Hmsg _. injection Hmsg as <-. split; reflexivity.
      * intros msg0 Hmsg Hyes. injection Hmsg as <-. rewrite Eanswer in Hyes. discriminate Hyes.
Qed.

Lemma quick_mode_installs_locally_witness :
  opt_vscode (npm_down false) && opt_claude (npm_down false) = true
  /\ fst (run (npm_down false) []) = Exit 1%Z
  /\ commands (snd (run (npm_down false) []))
     = [js "npm install @mcp-intelligence/core @mcp-intelligence/cli"].
Proof.
  split; [reflexivity|].
  destruct (@quick_mode_installs_locally (npm_down false) [] eq_refl)
    as [events [Hsnd [_ [Hstops _]]]].
  destruct (Hstops (js "Command failed: npm install") eq_refl eq_refl) as [Hrun Hcommands].
  rewrite Hsnd, app_nil_r, Hcommands, Hrun. split; reflexivity.
Defined.
